(** * The inmate spider of jailscraper: a shallow embedding and its properties

    The development follows [jailscraper/spiders/inmate_spider.py].  Python
    strings are modelled as [string] (code points below 256), Python integers
    as [Z], a [dict] read from the seed file as a [gmap], and a call that may
    raise as a value of [Result].  The clock, the file system, the network and
    the object store are the fields of a [World]; the configuration module
    [app_config], the csv reader and the page extractor [InmatePage] are
    parameters. *)

From Stdlib Require Import ZArith Lia String Ascii List Bool Sorted DecimalString DecimalZ.
From stdpp Require Import base option list strings gmap.

Local Open Scope string_scope.
Local Open Scope list_scope.
Local Open Scope Z_scope.

(** Concatenation of strings reduces under [simpl] in this file. *)
#[local] Arguments String.append !s1 s2 : simpl nomatch.

(** ** Exceptions *)

(** [FuelExhausted] is not a Python exception: it marks a [while] loop that was
    cut before its test failed.  [scan_universe_runs] shows that the fuel given
    by [_generate_urls] is never exhausted on calendar dates. *)
Inductive exn : Type :=
  | IndexError | KeyError | ValueError | OverflowError
  | FileNotFoundError | OSError | RequestException | S3UploadFailedError
  | FuelExhausted.

Inductive Result (A : Type) : Type :=
  | Ok (a : A)
  | Raise (e : exn).
Arguments Ok {A} a.
Arguments Raise {A} e.

#[export] Instance Result_ret : MRet Result := fun A a => Ok a.
#[export] Instance Result_bind : MBind Result := fun A B f r =>
  match r with
  | Ok a => f a
  | Raise e => Raise e
  end.

(** ** The Python built-ins the spider uses *)

Module Py.

(** [str(n)] for an [int]. *)
Definition str (n : Z) : string := NilZero.string_of_int (Z.to_int n).

(** [s.zfill(width)] for a string of digits without sign: zeros on the left
    up to [width] characters, nothing when [s] is already that long. *)
Fixpoint zeros (k : nat) : string :=
  match k with
  | O => ""
  | S k' => String "0" (zeros k')
  end.

Definition zfill (width : nat) (s : string) : string :=
  zeros (width - String.length s) +:+ s.

(** The format specification [0<width>d]: the sign first, then zeros, then
    the digits, [width] characters at least in all. *)
Definition format_0d (width : nat) (n : Z) : string :=
  if n <? 0 then String "-" (zfill (width - 1) (str (- n)))
  else zfill width (str n).

(** [range(a, b)] *)
Definition range (a b : Z) : list Z :=
  (fun i : nat => a + Z.of_nat i) <$> seq 0 (Z.to_nat (b - a)).

(** [s.split(sep)] for a separator of one character. *)
Fixpoint split (sep : ascii) (s : string) : list string :=
  match s with
  | "" => [""]
  | String c r =>
      if Ascii.eqb c sep then "" :: split sep r
      else match split sep r with
           | h :: t => String c h :: t
           | [] => [String c ""]
           end
  end.

(** The line boundaries of [str.splitlines] among the code points below 256:
    LF, VT, FF, CR, FS, GS, RS and NEL. *)
Definition is_linebreak (c : ascii) : bool :=
  let n := N_of_ascii c in
  (N.eqb n 10 || N.eqb n 11 || N.eqb n 12 || N.eqb n 13
   || N.eqb n 28 || N.eqb n 29 || N.eqb n 30 || N.eqb n 133)%N.

(** [s.splitlines()]: the lines without their terminators; CR LF is one
    boundary, and a final terminator opens no empty last line. *)
Fixpoint splitlines (s : string) : list string :=
  match s with
  | "" => []
  | String c r =>
      if is_linebreak c then
        "" :: match c, r with
              | "013"%char, String "010"%char r' => splitlines r'
              | _, _ => splitlines r
              end
      else match splitlines r with
           | l :: ls => String c l :: ls
           | [] => [String c ""]
           end
  end.

(** [l.pop()], of which the spider keeps only the popped element. *)
Definition pop {A} (l : list A) : Result A :=
  match last l with
  | Some x => Ok x
  | None => Raise IndexError
  end.

(** [l[-1]] and [l[0]] *)
Definition index_last {A} (l : list A) : Result A :=
  match last l with
  | Some x => Ok x
  | None => Raise IndexError
  end.

Definition index_first {A} (l : list A) : Result A :=
  match l with
  | x :: _ => Ok x
  | [] => Raise IndexError
  end.

(** [l[start:]] with Python's reading of a negative [start]: it counts from
    the end, and what still falls before the list is clipped to its
    beginning. *)
Definition slice_from {A} (start : Z) (l : list A) : list A :=
  let n := Z.of_nat (length l) in
  let first := if start <? 0 then Z.max 0 (start + n) else Z.min start n in
  drop (Z.to_nat first) l.

(** [s.startswith(c)] for one character, and [s[1:]]. *)
Definition startswith (c : ascii) (s : string) : bool :=
  match s with
  | String c' _ => Ascii.eqb c' c
  | "" => false
  end.

Definition tail_from_1 (s : string) : string :=
  match s with
  | String _ r => r
  | "" => ""
  end.

Definition endswith (c : ascii) (s : string) : bool :=
  match last (list_ascii_of_string s) with
  | Some c' => Ascii.eqb c' c
  | None => false
  end.

(** [os.path.join(a, b)] on a POSIX system. *)
Definition path_join (a b : string) : string :=
  if startswith "/" b then b
  else if String.eqb a "" || endswith "/" a then a +:+ b
  else a +:+ "/" +:+ b.

(** [sorted(l)] on strings: by code points, as [String.leb] compares. *)
Fixpoint insert_sorted (x : string) (l : list string) : list string :=
  match l with
  | [] => [x]
  | y :: l' => if String.leb x y then x :: l else y :: insert_sorted x l'
  end.

Fixpoint sorted (l : list string) : list string :=
  match l with
  | [] => []
  | x :: l' => insert_sorted x (sorted l')
  end.

End Py.

(** ** The [datetime] values of the spider *)

(** Every [datetime] the spider holds is a calendar day at midnight: [_today]
    is [date.today()] combined with the minimal time, [strptime] with the
    format [%Y-%m-%d] gives midnight, and [ONE_DAY] is added or subtracted.
    A value is therefore its year, month and day; the order on them is the
    order on [datetime]. *)
Module Datetime.

Record datetime : Type := mk { year : Z; month : Z; day : Z }.

Definition MINYEAR : Z := 1.
Definition MAXYEAR : Z := 9999.

Definition is_leap (y : Z) : bool :=
  (y mod 4 =? 0) && (negb (y mod 100 =? 0) || (y mod 400 =? 0)).

Definition days_in_month (y m : Z) : Z :=
  match m with
  | 1 | 3 | 5 | 7 | 8 | 10 | 12 => 31
  | 4 | 6 | 9 | 11 => 30
  | 2 => if is_leap y then 29 else 28
  | _ => 0
  end.

(** The check of the [datetime] constructor. *)
Definition valid (d : datetime) : bool :=
  (MINYEAR <=? year d) && (year d <=? MAXYEAR)
  && (1 <=? month d) && (month d <=? 12)
  && (1 <=? day d) && (day d <=? days_in_month (year d) (month d)).

(** [a < b] and [a <= b] *)
Definition lt (a b : datetime) : bool :=
  (year a <? year b)
  || ((year a =? year b)
      && ((month a <? month b)
          || ((month a =? month b) && (day a <? day b)))).

Definition le (a b : datetime) : bool := negb (lt b a).

(** [d + ONE_DAY]: the next calendar day, [OverflowError] after
    9999-12-31. *)
Definition add_ONE_DAY (d : datetime) : Result datetime :=
  if day d <? days_in_month (year d) (month d) then
    Ok (mk (year d) (month d) (day d + 1))
  else if month d <? 12 then Ok (mk (year d) (month d + 1) 1)
  else if year d <? MAXYEAR then Ok (mk (year d + 1) 1 1)
  else Raise OverflowError.

(** [d - ONE_DAY]: the previous calendar day, [OverflowError] before
    0001-01-01. *)
Definition sub_ONE_DAY (d : datetime) : Result datetime :=
  if 1 <? day d then Ok (mk (year d) (month d) (day d - 1))
  else if 1 <? month d then
    Ok (mk (year d) (month d - 1) (days_in_month (year d) (month d - 1)))
  else if MINYEAR <? year d then Ok (mk (year d - 1) 12 31)
  else Raise OverflowError.

(** [d.strftime(fmt)] for the directives [%Y], [%m] and [%d], as the Python
    documentation gives them: the year on four digits, the month and the day
    on two, zero-padded.  For a year below 1000 some C libraries write [%Y]
    without the zeros; from the year 1000 on all agree with this definition. *)
Definition directive (d : datetime) (c : ascii) : string :=
  if Ascii.eqb c "Y" then Py.zfill 4 (Py.str (year d))
  else if Ascii.eqb c "m" then Py.zfill 2 (Py.str (month d))
  else if Ascii.eqb c "d" then Py.zfill 2 (Py.str (day d))
  else String "%" (String c "").

Fixpoint strftime (d : datetime) (fmt : string) : string :=
  match fmt with
  | "" => ""
  | String "%" (String c r) => directive d c +:+ strftime d r
  | String c r => String c (strftime d r)
  end.

(** *** [datetime.strptime(s, '%Y-%m-%d')]

    CPython turns the format into the regular expression
    [(\d\d\d\d)-(1[0-2]|0[1-9]|[1-9])-(3[01]|[12]\d|0[1-9]|[1-9]| [1-9])],
    matches it at the start of [s], raises when it does not match or when
    text remains after the match, and then builds the [datetime], which
    raises on a day that the calendar does not have. *)
Definition digit (c : ascii) : option Z :=
  let n := Z.of_N (N_of_ascii c) in
  if (48 <=? n) && (n <=? 57) then Some (n - 48) else None.

Definition digit_in (lo hi : Z) (c : ascii) : option Z :=
  match digit c with
  | Some n => if (lo <=? n) && (n <=? hi) then Some n else None
  | None => None
  end.

(** The group of [%Y]: four digits. *)
Definition match_Y (s : string) : option (Z * string) :=
  match s with
  | String a (String b (String c (String e r))) =>
      match digit a, digit b, digit c, digit e with
      | Some a, Some b, Some c, Some e =>
          Some (1000 * a + 100 * b + 10 * c + e, r)
      | _, _, _, _ => None
      end
  | _ => None
  end.

Definition match_hyphen (s : string) : option string :=
  match s with
  | String c r => if Ascii.eqb c "-" then Some r else None
  | "" => None
  end.

(** The group of [%m] and the hyphen after it: the first alternative after
    which the hyphen is found; the result is the month and what follows the
    hyphen. *)
Definition match_m_hyphen (s : string) : option (Z * string) :=
  let two :=
    match s with
    | String a (String b r) =>
        match digit_in 1 1 a, digit_in 0 2 b, match_hyphen r with
        | Some _, Some n, Some r' => Some (10 + n, r')
        | _, _, _ =>
            match digit_in 0 0 a, digit_in 1 9 b, match_hyphen r with
            | Some _, Some n, Some r' => Some (n, r')
            | _, _, _ => None
            end
        end
    | _ => None
    end in
  match two with
  | Some res => Some res
  | None =>
      match s with
      | String a r =>
          match digit_in 1 9 a, match_hyphen r with
          | Some n, Some r' => Some (n, r')
          | _, _ => None
          end
      | "" => None
      end
  end.

(** The group of [%d], the last of the expression: the first alternative
    that matches, and what remains of the input after it. *)
Definition match_d (s : string) : option (Z * string) :=
  let two (lo1 hi1 lo2 hi2 : Z) :=
    match s with
    | String a (String b r) =>
        match digit_in lo1 hi1 a, digit_in lo2 hi2 b with
        | Some m, Some n => Some (10 * m + n, r)
        | _, _ => None
        end
    | _ => None
    end in
  match two 3 3 0 1 with
  | Some res => Some res
  | None =>
  match two 1 2 0 9 with
  | Some res => Some res
  | None =>
  match two 0 0 1 9 with
  | Some res => Some res
  | None =>
  match s with
  | String a r =>
      match digit_in 1 9 a with
      | Some n => Some (n, r)
      | None =>
          match r with
          | String b r' =>
              if Ascii.eqb a " " then
                match digit_in 1 9 b with
                | Some n => Some (n, r')
                | None => None
                end
              else None
          | "" => None
          end
      end
  | "" => None
  end end end end.

Definition strptime (s : string) : Result datetime :=
  match match_Y s with
  | None => Raise ValueError
  | Some (y, r1) =>
  match match_hyphen r1 with
  | None => Raise ValueError
  | Some r2 =>
  match match_m_hyphen r2 with
  | None => Raise ValueError
  | Some (m, r3) =>
  match match_d r3 with
  | None => Raise ValueError
  | Some (d, rest) =>
      if negb (String.eqb rest "") then Raise ValueError
      else if valid (mk y m d) then Ok (mk y m d)
      else Raise ValueError
  end end end end.

End Datetime.

Import Datetime.

(** ** Configuration, collaborators and the outside world *)

(** The module [jailscraper.app_config].  [INMATE_URL_TEMPLATE] is the
    template applied by [format] to its one argument. *)
Record app_config : Type := {
  USE_S3_STORAGE : bool;
  USE_LOCAL_STORAGE : bool;
  S3_BUCKET : string;
  TARGET : string;
  INMATE_URL_TEMPLATE : string -> string;
  MAX_DEFAULT_JAIL_NUMBER : Z;
  FALLBACK_START_DATE : string
}.

(** The attributes of an [InmatePage] that the spider reads. *)
Record Inmate : Type := {
  age_at_booking : string;
  bail_amount : string;
  booking_date : string;
  booking_id : string;
  charges : string;
  court_date : string;
  court_location : string;
  gender : string;
  inmate_hash : string;
  height : string;
  housing_location : string;
  race : string;
  weight : string
}.

(** The item that [parse] yields. *)
Record Item : Type := {
  Age_At_Booking : string;
  Bail_Amount : string;
  Booking_Date : string;
  Booking_Id : string;
  Charges : string;
  Court_Date : string;
  Court_Location : string;
  Gender : string;
  Inmate_Hash : string;
  Height : string;
  Housing_Location : string;
  Race : string;
  Weight : string;
  Incomplete : bool
}.

(** The dictionary of the [yield] of [parse], given the value of
    [_is_complete_record]. *)
Definition make_item (inmate : Inmate) (incomplete : bool) : Item :=
  {| Age_At_Booking := age_at_booking inmate;
     Bail_Amount := bail_amount inmate;
     Booking_Date := booking_date inmate;
     Booking_Id := booking_id inmate;
     Charges := charges inmate;
     Court_Date := court_date inmate;
     Court_Location := court_location inmate;
     Gender := gender inmate;
     Inmate_Hash := inmate_hash inmate;
     Height := height inmate;
     Housing_Location := housing_location inmate;
     Race := race inmate;
     Weight := weight inmate;
     Incomplete := incomplete |}.

(** What a run observes of its environment: the clock, the directory
    listing, the files and URLs it reads; and whether each write goes
    through. *)
Record World : Type := {
  date_today : datetime;
  os_listdir : string -> Result (list string);
  open_read : string -> Result string;
  requests_get_text : string -> Result string;
  os_makedirs : string -> Result unit;
  open_write : string -> string -> Result unit;
  upload_fileobj : string -> string -> Result unit
}.

(** What [_get_seed_file] hands to [csv.DictReader]: the empty list of the
    fallback, or a text stream (an open file, an [io.StringIO]). *)
Inductive seed_lines : Type :=
  | EmptyList
  | TextStream (text : string).

(** A row of [csv.DictReader]: a value is [None] where the line was shorter
    than the header. *)
Abbreviation csv_row := (gmap string (option string)).

(** [format] renders [None] as the text None. *)
Definition format_value (v : option string) : string :=
  match v with
  | Some s => s
  | None => "None"
  end.

(** A comprehension whose body may raise. *)
Fixpoint comprehension {A B} (f : A -> Result B) (l : list A) : Result (list B) :=
  match l with
  | [] => Ok []
  | a :: l' => b ← f a; bs ← comprehension f l'; Ok (b :: bs)
  end.

(** The spider's attributes; [_start_date] is written once and never read. *)
Record InmatesSpider : Type := {
  _today : datetime;
  _yesterday : datetime;
  _testing : bool
}.

(** An upper bound of the number of days from a date to a later one, which
    serves as the fuel of the [while] loop. *)
Definition day_index (d : datetime) : Z :=
  (year d * 12 + (month d - 1)) * 31 + (day d - 1).

Definition scan_fuel (last_date today : datetime) : nat :=
  Z.to_nat (day_index today - day_index last_date).

Section Spider.

Variable cfg : app_config.
(** [csv.DictReader] on the text of a stream; a reader that raises
    [csv.Error] is outside the model. *)
Variable csv_DictReader : string -> list csv_row.
(** [InmatePage(response.body)] *)
Variable InmatePage : string -> Inmate.
Variable w : World.

Definition __init__ (testing : bool) : Result InmatesSpider :=
  let today := date_today w in
  yesterday ← sub_ONE_DAY today;
  Ok {| _today := today; _yesterday := yesterday; _testing := testing |}.

Definition DictReader (f : seed_lines) : list csv_row :=
  match f with
  | EmptyList => []
  | TextStream text => csv_DictReader text
  end.

(** The [url] of the manifest in [_get_s3_seed_file]. *)
Definition manifest_url : string :=
  let target := TARGET cfg in
  let target := if negb (String.eqb target "") then target +:+ "/" else target in
  "https://s3.amazonaws.com/" +:+ S3_BUCKET cfg +:+ "/" +:+ target +:+ "manifest.csv".

(** [name.split('.')[0]] and [seed_url.split('/')[-1].split('.')[0]] *)
Definition date_of_name (name : string) : Result string :=
  Py.index_first (Py.split "." name).

Definition date_of_url (seed_url : string) : Result string :=
  name ← Py.index_last (Py.split "/" seed_url);
  date_of_name name.

Definition _get_s3_seed_file : Result (string * seed_lines) :=
  let url := manifest_url in
  text ← requests_get_text w url;
  seed_url ← Py.pop (Py.splitlines text);
  last_date ← date_of_url seed_url;
  seed_text ← requests_get_text w seed_url;
  Ok (last_date, TextStream seed_text).

Definition _get_local_seed_file : Result (string * seed_lines) :=
  files ← match os_listdir w "data/daily" with
          | Ok names => Ok (Py.sorted names)
          | Raise FileNotFoundError => Ok []
          | Raise e => Raise e
          end;
  if (length files =? 0)%nat then Ok (FALLBACK_START_DATE cfg, EmptyList)
  else
    name ← Py.index_last files;
    let last_file := Py.path_join "data/daily" name in
    last_date ← date_of_name name;
    text ← open_read w last_file;
    Ok (last_date, TextStream text).

Definition _get_seed_file : Result (string * seed_lines) :=
  if USE_S3_STORAGE cfg then _get_s3_seed_file else _get_local_seed_file.

(** ['{0}{1:03d}'.format(next_query, num)] *)
Definition jailnumber (next_query : string) (num : Z) : string :=
  next_query +:+ Py.format_0d 3 num.

(** The body of the [for] loop over [num], for one day. *)
Definition append_day (next_query : string) (urls : list string) : list string :=
  fold_left
    (fun urls num => urls ++ [INMATE_URL_TEMPLATE cfg (jailnumber next_query num)])
    (Py.range 1 (MAX_DEFAULT_JAIL_NUMBER cfg + 1)) urls.

(** The [while] loop of [_generate_urls]. *)
Fixpoint scan_universe (fuel : nat) (today last_date : datetime)
    (urls : list string) : Result (list string) :=
  if lt last_date today then
    match fuel with
    | O => Raise FuelExhausted
    | S fuel' =>
        let next_query := strftime last_date "%Y-%m%d" in
        let urls := append_day next_query urls in
        last_date ← add_ONE_DAY last_date;
        scan_universe fuel' today last_date urls
    end
  else Ok urls.

(** [INMATE_URL_TEMPLATE.format(row['Booking_Id'])] *)
Definition row_url (row : csv_row) : Result string :=
  match row !! "Booking_Id" with
  | Some v => Ok (INMATE_URL_TEMPLATE cfg (format_value v))
  | None => Raise KeyError
  end.

Definition _generate_urls (self : InmatesSpider) : Result (list string) :=
  '(last_date, f) ← _get_seed_file;
  last_date ← strptime last_date;
  let reader := DictReader f in
  urls ← comprehension row_url reader;
  last_date ← (if negb (length urls =? 0)%nat then add_ONE_DAY last_date
               else Ok last_date);
  urls ← scan_universe (scan_fuel last_date (_today self)) (_today self)
            last_date urls;
  if _testing self then Ok (Py.slice_from (Z.of_nat (length urls) - 600) urls)
  else Ok urls.

(** One request for each URL, in order. *)
Definition start_requests (self : InmatesSpider) : Result (list string) :=
  _generate_urls self.

Definition _generate_page_filename (self : InmatesSpider) (inmate : Inmate) : string :=
  strftime (_today self) "%Y-%m-%d" +:+ "-" +:+ booking_id inmate +:+ ".html".

Definition _save_local (self : InmatesSpider) (body : string) (inmate : Inmate)
    : Result unit :=
  _ ← os_makedirs w "data/raw";
  let filepath := Py.path_join "data/raw" (_generate_page_filename self inmate) in
  open_write w filepath body.

(** The key that [_save_to_s3] gives to [upload_fileobj]. *)
Definition s3_key (self : InmatesSpider) (inmate : Inmate) : string :=
  let key := TARGET cfg +:+ "/raw/" +:+ _generate_page_filename self inmate in
  if Py.startswith "/" key then Py.tail_from_1 key else key.

Definition _save_to_s3 (self : InmatesSpider) (body : string) (inmate : Inmate)
    : Result unit :=
  upload_fileobj w body (s3_key self inmate).

Definition _is_complete_record (self : InmatesSpider) (inmate : Inmate) : Result bool :=
  booking_date ← strptime (booking_date inmate);
  Ok (lt booking_date (_yesterday self)).

(** [parse] yields one item, unless a call before the [yield] raises. *)
Definition parse (self : InmatesSpider) (body : string) : Result (list Item) :=
  let inmate := InmatePage body in
  _ ← (if USE_LOCAL_STORAGE cfg then _save_local self body inmate else Ok ());
  _ ← (if USE_S3_STORAGE cfg then _save_to_s3 self body inmate else Ok ());
  incomplete ← _is_complete_record self inmate;
  Ok [make_item inmate incomplete].

End Spider.

(** ** Notions used in the statements, and sample values *)

(** The number that a string of decimal digits denotes. *)
Definition digits_value (s : string) : option Z :=
  Z.of_uint <$> NilEmpty.uint_of_string s.

(** The URLs of one day, in the order of their numbers. *)
Definition day_urls (cfg : app_config) (d : datetime) : list string :=
  (fun num => INMATE_URL_TEMPLATE cfg (jailnumber (strftime d "%Y-%m%d") num))
    <$> Py.range 1 (MAX_DEFAULT_JAIL_NUMBER cfg + 1).

(** The days that the [while] loop visits from [last_date]. *)
Fixpoint scan_days (fuel : nat) (today last_date : datetime) : list datetime :=
  if lt last_date today then
    match fuel with
    | O => []
    | S fuel' =>
        last_date :: match add_ONE_DAY last_date with
                     | Ok d' => scan_days fuel' today d'
                     | Raise _ => []
                     end
    end
  else [].

Definition days_between (start today : datetime) : list datetime :=
  scan_days (scan_fuel start today) today start.

(** What the loop adds to the list when it starts on [start]. *)
Definition enumerate (cfg : app_config) (start today : datetime) : list string :=
  flat_map (day_urls cfg) (days_between start today).

(** The last statement of [_generate_urls]. *)
Definition sample (self : InmatesSpider) (urls : list string) : list string :=
  if _testing self then Py.slice_from (Z.of_nat (length urls) - 600) urls else urls.

(** The start of the scan, from the resume date and the URLs of the seed. *)
Definition cursor (D : datetime) (seed : list string) : Result datetime :=
  if negb (length seed =? 0)%nat then add_ONE_DAY D else Ok D.

Definition sample_template (jailnumber : string) : string :=
  "http://jail.example/details?jailnumber=" +:+ jailnumber.

Definition sample_config (s3 : bool) (target : string) (max : Z) (fallback : string)
    : app_config :=
  {| USE_S3_STORAGE := s3;
     USE_LOCAL_STORAGE := negb s3;
     S3_BUCKET := "bucket";
     TARGET := target;
     INMATE_URL_TEMPLATE := sample_template;
     MAX_DEFAULT_JAIL_NUMBER := max;
     FALLBACK_START_DATE := fallback |}.

(** A reader for the sample seed files: one row for each name after the
    header line. *)
Definition sample_reader (text : string) : list csv_row :=
  match Py.splitlines text with
  | [] => []
  | _ :: ids => (fun id : string => {[ "Booking_Id" := Some id ]}) <$> ids
  end.

(** A world without seed directory, where nothing can be fetched and every
    write goes through. *)
Definition empty_world (today : datetime) : World :=
  {| date_today := today;
     os_listdir := fun _ => Raise FileNotFoundError;
     open_read := fun _ => Raise FileNotFoundError;
     requests_get_text := fun _ => Raise RequestException;
     os_makedirs := fun _ => Ok ();
     open_write := fun _ _ => Ok ();
     upload_fileobj := fun _ _ => Ok () |}.

(** A world whose seed directory holds the given files, each with the given
    text. *)
Definition seeded_world (today : datetime) (names : list string) (text : string)
    : World :=
  {| date_today := today;
     os_listdir := fun _ => Ok names;
     open_read := fun _ => Ok text;
     requests_get_text := fun _ => Raise RequestException;
     os_makedirs := fun _ => Ok ();
     open_write := fun _ _ => Ok ();
     upload_fileobj := fun _ _ => Ok () |}.

(** A world whose manifest and seed partitions are served over HTTP. *)
Definition s3_world (today : datetime) (manifest text : string) : World :=
  {| date_today := today;
     os_listdir := fun _ => Raise FileNotFoundError;
     open_read := fun _ => Raise FileNotFoundError;
     requests_get_text := fun url =>
       if String.eqb url "https://s3.amazonaws.com/bucket/manifest.csv"
       then Ok manifest else Ok text;
     os_makedirs := fun _ => Ok ();
     open_write := fun _ _ => Ok ();
     upload_fileobj := fun _ _ => Ok () |}.

Definition spider_on (today yesterday : datetime) (testing : bool) : InmatesSpider :=
  {| _today := today; _yesterday := yesterday; _testing := testing |}.

Definition newline : string := String "010" "".

(** The URL that the scan makes for the day [d] and the number [num]. *)
Definition generated_for (cfg : app_config) (d : datetime) (num : Z) (u : string)
    : Prop :=
  u = INMATE_URL_TEMPLATE cfg (jailnumber (strftime d "%Y-%m%d") num).

(** The candidate as the specification words it: the day in the form
    [YYYYMMDD], then the number on three digits. *)
Definition claimed_jailnumber (d : datetime) (num : Z) : string :=
  strftime d "%Y%m%d" +:+ Py.format_0d 3 num.

(** The scenario of the specification: the seed of 2023-06-01 holds the
    identifier A1, today is 2023-06-03 and a day has 50 numbers. *)
Definition scenario_world : World :=
  seeded_world (mk 2023 6 3) ["2023-06-01.csv"]
    ("Booking_Id" +:+ newline +:+ "A1" +:+ newline).

Definition scenario_spider : InmatesSpider :=
  spider_on (mk 2023 6 3) (mk 2023 6 2) false.

(** The last partition of a manifest that is not empty: its marker, the text
    of its date and the text of its records.  On the local file system the
    manifest is the sorted listing of [data/daily]; on S3 it is the list of
    the lines of [manifest.csv]. *)
Inductive last_partition (cfg : app_config) (w : World)
    : string -> string -> string -> Prop :=
  | last_local (names : list string) (marker s text : string) :
      USE_S3_STORAGE cfg = false ->
      os_listdir w "data/daily" = Ok names ->
      last (Py.sorted names) = Some marker ->
      date_of_name marker = Ok s ->
      open_read w (Py.path_join "data/daily" marker) = Ok text ->
      last_partition cfg w marker s text
  | last_s3 (manifest marker s text : string) :
      USE_S3_STORAGE cfg = true ->
      requests_get_text w (manifest_url cfg) = Ok manifest ->
      last (Py.splitlines manifest) = Some marker ->
      date_of_url marker = Ok s ->
      requests_get_text w marker = Ok text ->
      last_partition cfg w marker s text.

(** A page extractor for the samples: the body is the booking identifier, the
    booking date is fixed. *)
Definition sample_page (date : string) (body : string) : Inmate :=
  {| age_at_booking := "30"; bail_amount := "5000"; booking_date := date;
     booking_id := body; charges := ""; court_date := ""; court_location := "";
     gender := ""; inmate_hash := ""; height := ""; housing_location := "";
     race := ""; weight := "" |}.

(** A world where the local write fails. *)
Definition read_only_world (today : datetime) : World :=
  {| date_today := today;
     os_listdir := fun _ => Raise FileNotFoundError;
     open_read := fun _ => Raise FileNotFoundError;
     requests_get_text := fun _ => Raise RequestException;
     os_makedirs := fun _ => Ok ();
     open_write := fun _ _ => Raise OSError;
     upload_fileobj := fun _ _ => Raise S3UploadFailedError |}.

(** The saves that the configuration enables all succeed. *)
Definition saves_succeed (cfg : app_config) (w : World) (self : InmatesSpider)
    (body : string) (inmate : Inmate) : Prop :=
  (USE_LOCAL_STORAGE cfg = true -> _save_local w self body inmate = Ok ())
  /\ (USE_S3_STORAGE cfg = true -> _save_to_s3 cfg w self body inmate = Ok ()).

(** The last element of a list is above every element, in the order of
    [sorted]. *)
Definition last_is_greatest (l : list string) : Prop :=
  forall m, last l = Some m -> forall y, y ∈ l -> String.leb y m = true.

(** The spider with its testing mode set. *)
Definition with_testing (testing : bool) (self : InmatesSpider) : InmatesSpider :=
  {| _today := _today self; _yesterday := _yesterday self; _testing := testing |}.

(** A reader whose rows have no column [Booking_Id]. *)
Definition keyless_reader (text : string) : list csv_row :=
  [ {[ "Name" := Some text ]} ].

(** A world whose seed directory cannot be listed. *)
Definition unlistable_world (today : datetime) : World :=
  {| date_today := today;
     os_listdir := fun _ => Raise OSError;
     open_read := fun _ => Raise FileNotFoundError;
     requests_get_text := fun _ => Raise RequestException;
     os_makedirs := fun _ => Ok ();
     open_write := fun _ _ => Ok ();
     upload_fileobj := fun _ _ => Ok () |}.

(** The text has no occurrence of the character. *)
Fixpoint char_free (c : ascii) (s : string) : bool :=
  match s with
  | "" => true
  | String c' r => negb (Ascii.eqb c' c) && char_free c r
  end.

(** The year, written on four characters, is read back by the group of [%Y];
    the day, written on two, by the group of [%d]. *)
Definition year_text_ok (y : Z) : bool :=
  match match_Y (Py.zfill 4 (Py.str y)) with
  | Some (y', "") => y' =? y
  | _ => false
  end.

Definition day_text_ok (d : Z) : bool :=
  match match_d (Py.zfill 2 (Py.str d)) with
  | Some (d', "") => d' =? d
  | _ => false
  end.

(** Where [splitlines] resumes after the line boundary [c]: after the line
    feed that follows a carriage return, or at once. *)
Definition after_break (c : ascii) (r : string) : string :=
  if Ascii.eqb c "013" then
    match r with
    | String c' r' => if Ascii.eqb c' "010" then r' else r
    | "" => r
    end
  else r.

(** * Properties *)

(** ** The model on sample values *)

Lemma bind_Ok {A B} (f : A -> Result B) (a : A) : (Ok a ≫= f) = f a.
Proof. reflexivity. Qed.

Lemma bind_Raise {A B} (f : A -> Result B) (e : exn) : (Raise e ≫= f) = Raise e.
Proof. reflexivity. Qed.

Lemma bind_Ok_inv {A B} (f : A -> Result B) (r : Result A) (b : B) :
  (r ≫= f) = Ok b -> exists a, r = Ok a /\ f a = Ok b.
Proof. destruct r as [a|e]; simpl; [eauto | discriminate]. Qed.

Example strptime_plain : strptime "2023-06-01" = Ok (mk 2023 6 1).
Proof. reflexivity. Qed.

Example strptime_short_fields : strptime "2023-6-1" = Ok (mk 2023 6 1).
Proof. reflexivity. Qed.

Example strptime_no_such_day : strptime "2023-02-29" = Raise ValueError.
Proof. reflexivity. Qed.

Example strptime_text_remains : strptime "2023-06-011" = Raise ValueError.
Proof. reflexivity. Qed.

Example strptime_month_13 : strptime "2023-13-01" = Raise ValueError.
Proof. reflexivity. Qed.

Example strftime_jail_date : strftime (mk 2023 6 2) "%Y-%m%d" = "2023-0602".
Proof. reflexivity. Qed.

Example strftime_page_date : strftime (mk 2023 6 2) "%Y-%m-%d" = "2023-06-02".
Proof. reflexivity. Qed.

Example sorted_listing :
  Py.sorted ["2023-06-01.csv"; "2023-05-31.csv"; "2023-05-04.csv"]
  = ["2023-05-04.csv"; "2023-05-31.csv"; "2023-06-01.csv"].
Proof. reflexivity. Qed.

Example date_of_url_sample :
  date_of_url "https://s3.amazonaws.com/bucket/daily/2023-06-01.csv"
  = Ok "2023-06-01".
Proof. reflexivity. Qed.

Example format_0d_samples :
  Py.format_0d 3 7 = "007" /\ Py.format_0d 3 42 = "042"
  /\ Py.format_0d 3 1234 = "1234" /\ Py.format_0d 3 (-5) = "-05".
Proof. repeat split; reflexivity. Qed.

Example add_ONE_DAY_leap : add_ONE_DAY (mk 2024 2 28) = Ok (mk 2024 2 29).
Proof. reflexivity. Qed.

Example add_ONE_DAY_year_end : add_ONE_DAY (mk 2023 12 31) = Ok (mk 2024 1 1).
Proof. reflexivity. Qed.

Example sub_ONE_DAY_march : sub_ONE_DAY (mk 2023 3 1) = Ok (mk 2023 2 28).
Proof. reflexivity. Qed.

Example splitlines_manifest :
  Py.splitlines ("a/2023-05-31.csv" +:+ String "010" ("b/2023-06-01.csv" +:+ String "010" ""))
  = ["a/2023-05-31.csv"; "b/2023-06-01.csv"].
Proof. reflexivity. Qed.

Example slice_from_short : Py.slice_from (5 - 600) [1; 2; 3; 4; 5] = [1; 2; 3; 4; 5].
Proof. reflexivity. Qed.

(** ** The calendar *)

Ltac bool_prop :=
  repeat rewrite ?andb_true_iff, ?orb_true_iff, ?negb_true_iff, ?negb_false_iff,
    ?andb_false_iff, ?orb_false_iff, ?Z.ltb_lt, ?Z.leb_le, ?Z.eqb_eq,
    ?Z.ltb_ge, ?Z.leb_gt, ?Z.eqb_neq in *.

Ltac date_prop :=
  unfold le in *; unfold valid, lt, MINYEAR, MAXYEAR in *; simpl in *; bool_prop.

Lemma days_in_month_bounds (y m : Z) :
  1 <= m <= 12 -> 28 <= days_in_month y m <= 31.
Proof.
  intros Hm.
  assert (Hcases : m = 1 \/ m = 2 \/ m = 3 \/ m = 4 \/ m = 5 \/ m = 6 \/ m = 7
                   \/ m = 8 \/ m = 9 \/ m = 10 \/ m = 11 \/ m = 12) by lia.
  repeat (destruct Hcases as [-> | Hcases]; [simpl; try destruct (is_leap y); lia |]).
  subst m. simpl. lia.
Qed.

Lemma valid_bounds (d : datetime) :
  valid d = true ->
  1 <= year d <= 9999 /\ 1 <= month d <= 12
  /\ 1 <= day d <= days_in_month (year d) (month d) /\ day d <= 31.
Proof.
  intros H. date_prop.
  pose proof (days_in_month_bounds (year d) (month d)). lia.
Qed.

Lemma lt_irrefl (d : datetime) : lt d d = false.
Proof. destruct (lt d d) eqn:H; [|reflexivity]. exfalso. date_prop. lia. Qed.

Lemma lt_trans (a b c : datetime) :
  lt a b = true -> lt b c = true -> lt a c = true.
Proof. intros H1 H2. date_prop. lia. Qed.

Lemma le_lt_trans (a b c : datetime) :
  le a b = true -> lt b c = true -> lt a c = true.
Proof. intros H1 H2. date_prop. lia. Qed.

Lemma lt_le_trans (a b c : datetime) :
  lt a b = true -> le b c = true -> lt a c = true.
Proof. intros H1 H2. date_prop. lia. Qed.

Lemma le_refl (d : datetime) : le d d = true.
Proof. unfold le. now rewrite lt_irrefl. Qed.

Lemma lt_le_incl (a b : datetime) : lt a b = true -> le a b = true.
Proof. intros H. date_prop. lia. Qed.

Lemma le_lt_or_eq (a b : datetime) : le a b = true -> lt a b = true \/ a = b.
Proof.
  destruct a as [ya ma da], b as [yb mb db]. intros H. date_prop.
  destruct (Z.eq_dec ya yb), (Z.eq_dec ma mb), (Z.eq_dec da db);
    subst; auto; left; lia.
Qed.

Lemma lt_not_le (a b : datetime) : lt a b = true -> le b a = false.
Proof. intros H. unfold le. now rewrite H. Qed.

(** The fuel bound grows with the date. *)
Lemma day_index_lt (a b : datetime) :
  valid a = true -> valid b = true -> lt a b = true -> day_index a < day_index b.
Proof.
  intros Ha Hb H.
  apply valid_bounds in Ha, Hb. unfold day_index. date_prop. lia.
Qed.

(** The day after a calendar day, when there is one, is a calendar day, it is
    later, and no calendar day lies between the two. *)
Lemma add_ONE_DAY_valid (d d' : datetime) :
  valid d = true -> add_ONE_DAY d = Ok d' -> valid d' = true.
Proof.
  intros Hv. pose proof (valid_bounds d Hv) as Hb.
  unfold add_ONE_DAY.
  destruct (day d <? days_in_month (year d) (month d)) eqn:E1.
  - intros [= <-]. date_prop. lia.
  - destruct (month d <? 12) eqn:E2.
    + intros [= <-]. date_prop.
      pose proof (days_in_month_bounds (year d) (month d + 1)). lia.
    + destruct (year d <? MAXYEAR) eqn:E3; [|discriminate].
      intros [= <-]. date_prop. lia.
Qed.

Lemma add_ONE_DAY_lt (d d' : datetime) :
  add_ONE_DAY d = Ok d' -> lt d d' = true.
Proof.
  unfold add_ONE_DAY.
  destruct (day d <? days_in_month (year d) (month d)) eqn:E1.
  - intros [= <-]. date_prop. lia.
  - destruct (month d <? 12) eqn:E2.
    + intros [= <-]. date_prop. lia.
    + destruct (year d <? MAXYEAR) eqn:E3; [|discriminate].
      intros [= <-]. date_prop. lia.
Qed.

Lemma add_ONE_DAY_least (d d' x : datetime) :
  valid d = true -> valid x = true ->
  add_ONE_DAY d = Ok d' -> lt d x = true -> le d' x = true.
Proof.
  intros Hv Hx. pose proof (valid_bounds d Hv) as Hb.
  pose proof (valid_bounds x Hx) as Hbx.
  destruct d as [y m dd], x as [yx mx dx]. unfold add_ONE_DAY. simpl in *.
  destruct (dd <? days_in_month y m) eqn:E1.
  - intros [= <-] H. date_prop. lia.
  - destruct (m <? 12) eqn:E2.
    + intros [= <-] H. date_prop.
      destruct (Z.eq_dec yx y), (Z.eq_dec mx m); subst; lia.
    + destruct (y <? MAXYEAR) eqn:E3; [|discriminate].
      intros [= <-] H. date_prop.
      destruct (Z.eq_dec yx y), (Z.eq_dec mx m); subst; lia.
Qed.

Lemma add_ONE_DAY_before (d today : datetime) :
  valid d = true -> valid today = true -> lt d today = true ->
  exists d', add_ONE_DAY d = Ok d'.
Proof.
  intros Hv Ht H. pose proof (valid_bounds d Hv) as Hb.
  pose proof (valid_bounds today Ht) as Hbt.
  destruct d as [y m dd], today as [yt mt dt]. unfold add_ONE_DAY. simpl in *.
  destruct (dd <? days_in_month y m) eqn:E1; [eauto|].
  destruct (m <? 12) eqn:E2; [eauto|].
  destruct (y <? MAXYEAR) eqn:E3; [eauto|].
  exfalso. date_prop.
  destruct (Z.eq_dec yt y), (Z.eq_dec mt m); subst; lia.
Qed.

(** Two calendar days with the same next day are the same day. *)
Lemma add_ONE_DAY_inj (a b d : datetime) :
  valid a = true -> valid b = true ->
  add_ONE_DAY a = Ok d -> add_ONE_DAY b = Ok d -> a = b.
Proof.
  intros Ha Hb Hda Hdb.
  destruct (lt a b) eqn:Hab.
  - pose proof (add_ONE_DAY_least a d b Ha Hb Hda Hab) as Hle.
    pose proof (le_lt_trans _ _ _ Hle (add_ONE_DAY_lt _ _ Hdb)) as Hc.
    rewrite lt_irrefl in Hc. discriminate.
  - assert (Hle : le b a = true) by (unfold le; now rewrite Hab).
    destruct (le_lt_or_eq _ _ Hle) as [Hba | ->]; [|reflexivity].
    pose proof (add_ONE_DAY_least b d a Hb Ha Hdb Hba) as Hle'.
    pose proof (le_lt_trans _ _ _ Hle' (add_ONE_DAY_lt _ _ Hda)) as Hc.
    rewrite lt_irrefl in Hc. discriminate.
Qed.

(** The day before is the day whose next day is the given one. *)
Lemma sub_ONE_DAY_add (d y : datetime) :
  valid d = true -> sub_ONE_DAY d = Ok y -> add_ONE_DAY y = Ok d /\ valid y = true.
Proof.
  intros Hv. pose proof (valid_bounds d Hv) as Hb.
  destruct d as [yy m dd]. unfold sub_ONE_DAY, add_ONE_DAY. simpl in *.
  destruct (1 <? dd) eqn:E1.
  - intros [= <-]. simpl. date_prop.
    replace (dd - 1 <? days_in_month yy m) with true by (symmetry; apply Z.ltb_lt; lia).
    split; [do 2 f_equal; lia|]. repeat split; lia.
  - destruct (1 <? m) eqn:E2.
    + intros [= <-]. simpl. rewrite Z.ltb_irrefl. date_prop.
      pose proof (days_in_month_bounds yy (m - 1)).
      replace (m - 1 <? 12) with true by (symmetry; apply Z.ltb_lt; lia).
      split; [do 2 f_equal; lia|]. repeat split; lia.
    + destruct (MINYEAR <? yy) eqn:E3; [|discriminate].
      intros [= <-]. simpl. date_prop.
      replace (yy - 1 <? 9999) with true by (symmetry; apply Z.ltb_lt; lia).
      split; [do 2 f_equal; lia|]. repeat split; lia.
Qed.

(** ** Strings and the rendering of numbers *)

Lemma string_app_length (a b : string) :
  String.length (a +:+ b) = (String.length a + String.length b)%nat.
Proof. induction a as [|c a IH]; simpl; [reflexivity | now rewrite IH]. Qed.

Lemma string_app_nil_r (a : string) : a +:+ "" = a.
Proof. induction a as [|c a IH]; simpl; [reflexivity | now rewrite IH]. Qed.

Lemma string_app_assoc (a b c : string) : (a +:+ b) +:+ c = a +:+ (b +:+ c).
Proof. induction a as [|x a IH]; simpl; [reflexivity | now rewrite IH]. Qed.

(** Two concatenations that agree, with left parts of one length, agree part
    by part. *)
Lemma string_app_inj_length (a a' b b' : string) :
  String.length a = String.length a' ->
  a +:+ b = a' +:+ b' -> a = a' /\ b = b'.
Proof.
  revert a'. induction a as [|c a IH]; intros [|c' a'] Hlen H;
    simpl in *; try discriminate.
  - auto.
  - injection H as -> H. injection Hlen as Hlen.
    destruct (IH a' Hlen H) as [-> ->]. auto.
Qed.

Lemma string_app_inv_tail (a a' b : string) : a +:+ b = a' +:+ b -> a = a'.
Proof.
  intros H.
  assert (Hlen : String.length a = String.length a').
  { apply (f_equal String.length) in H. rewrite !string_app_length in H. lia. }
  now destruct (string_app_inj_length _ _ _ _ Hlen H).
Qed.

Lemma zeros_length (k : nat) : String.length (Py.zeros k) = k.
Proof. induction k; simpl; congruence. Qed.

Lemma zfill_length (width : nat) (s : string) :
  (String.length s <= width)%nat -> String.length (Py.zfill width s) = width.
Proof.
  intros H. unfold Py.zfill. rewrite string_app_length, zeros_length. lia.
Qed.

Lemma digits_value_zeros (k : nat) (s : string) :
  digits_value (Py.zeros k +:+ s) = digits_value s.
Proof.
  induction k as [|k IH]; simpl; [reflexivity|].
  rewrite <- IH. unfold digits_value. simpl.
  destruct (NilEmpty.uint_of_string (Py.zeros k +:+ s)); reflexivity.
Qed.

Lemma digits_value_str (n : Z) : 0 <= n -> digits_value (Py.str n) = Some n.
Proof.
  intros Hn. destruct n as [|p|p]; [reflexivity | | lia].
  unfold digits_value, Py.str. simpl.
  assert (Hd : NilZero.string_of_uint (Pos.to_uint p)
               = NilEmpty.string_of_uint (Pos.to_uint p)).
  { pose proof (DecimalPos.Unsigned.to_uint_nonnil p) as Hnn.
    destruct (Pos.to_uint p); [contradiction | reflexivity ..]. }
  rewrite Hd, NilEmpty.usu. simpl. unfold Z.of_uint.
  now rewrite DecimalPos.Unsigned.of_to.
Qed.

Lemma zfill_str_inj (width : nat) (a b : Z) :
  0 <= a -> 0 <= b -> Py.zfill width (Py.str a) = Py.zfill width (Py.str b) -> a = b.
Proof.
  intros Ha Hb H. apply (f_equal digits_value) in H.
  unfold Py.zfill in H.
  rewrite !digits_value_zeros, !digits_value_str in H by assumption.
  congruence.
Qed.

Lemma format_0d_inj (width : nat) (a b : Z) :
  0 <= a -> 0 <= b -> Py.format_0d width a = Py.format_0d width b -> a = b.
Proof.
  intros Ha Hb. unfold Py.format_0d.
  destruct (Z.ltb_spec a 0), (Z.ltb_spec b 0); try lia.
  now apply zfill_str_inj.
Qed.

(** A number below ten thousand is written on four characters at most, one
    below a hundred on two: checked on every such number. *)
Lemma str_length_4 (n : Z) : 0 <= n < 10000 -> (String.length (Py.str n) <= 4)%nat.
Proof.
  intros Hn.
  assert (Hall : forallb (fun i => (String.length (Py.str (Z.of_nat i)) <=? 4)%nat)
                   (seq 0 (Z.to_nat 10000)) = true) by (vm_compute; reflexivity).
  rewrite forallb_forall in Hall.
  specialize (Hall (Z.to_nat n)). rewrite Z2Nat.id in Hall by lia.
  apply Nat.leb_le, Hall, in_seq. lia.
Qed.

Lemma str_length_2 (n : Z) : 0 <= n < 100 -> (String.length (Py.str n) <= 2)%nat.
Proof.
  intros Hn.
  assert (Hall : forallb (fun i => (String.length (Py.str (Z.of_nat i)) <=? 2)%nat)
                   (seq 0 (Z.to_nat 100)) = true) by (vm_compute; reflexivity).
  rewrite forallb_forall in Hall.
  specialize (Hall (Z.to_nat n)). rewrite Z2Nat.id in Hall by lia.
  apply Nat.leb_le, Hall, in_seq. lia.
Qed.

(** *** The two date formats of the spider *)

Lemma strftime_jail_format (d : datetime) :
  strftime d "%Y-%m%d"
  = Py.zfill 4 (Py.str (year d))
    +:+ "-" +:+ Py.zfill 2 (Py.str (month d)) +:+ Py.zfill 2 (Py.str (day d)).
Proof. simpl. unfold directive. simpl. now rewrite string_app_nil_r. Qed.

Lemma strftime_page_format (d : datetime) :
  strftime d "%Y-%m-%d"
  = Py.zfill 4 (Py.str (year d))
    +:+ "-" +:+ Py.zfill 2 (Py.str (month d))
    +:+ "-" +:+ Py.zfill 2 (Py.str (day d)).
Proof. simpl. unfold directive. simpl. now rewrite string_app_nil_r. Qed.

Lemma valid_field_lengths (d : datetime) :
  valid d = true ->
  String.length (Py.zfill 4 (Py.str (year d))) = 4%nat
  /\ String.length (Py.zfill 2 (Py.str (month d))) = 2%nat
  /\ String.length (Py.zfill 2 (Py.str (day d))) = 2%nat.
Proof.
  intros Hv. apply valid_bounds in Hv.
  repeat split; apply zfill_length;
    [apply str_length_4 | apply str_length_2 | apply str_length_2]; lia.
Qed.

Lemma datetime_fields_eq (d d' : datetime) :
  year d = year d' -> month d = month d' -> day d = day d' -> d = d'.
Proof. destruct d, d'; simpl; congruence. Qed.

Lemma strftime_jail_length (d : datetime) :
  valid d = true -> String.length (strftime d "%Y-%m%d") = 9%nat.
Proof.
  intros Hv. destruct (valid_field_lengths d Hv) as (Hy & Hm & Hd).
  rewrite strftime_jail_format, !string_app_length, Hy, Hm, Hd. reflexivity.
Qed.

Lemma strftime_page_length (d : datetime) :
  valid d = true -> String.length (strftime d "%Y-%m-%d") = 10%nat.
Proof.
  intros Hv. destruct (valid_field_lengths d Hv) as (Hy & Hm & Hd).
  rewrite strftime_page_format, !string_app_length, Hy, Hm, Hd. reflexivity.
Qed.

Lemma strftime_jail_inj (d d' : datetime) :
  valid d = true -> valid d' = true ->
  strftime d "%Y-%m%d" = strftime d' "%Y-%m%d" -> d = d'.
Proof.
  intros Hv Hv' H.
  destruct (valid_field_lengths d Hv) as (Hy & Hm & Hd).
  destruct (valid_field_lengths d' Hv') as (Hy' & Hm' & Hd').
  apply valid_bounds in Hv, Hv'.
  rewrite !strftime_jail_format in H.
  apply string_app_inj_length in H as [H1 H]; [|congruence].
  simpl in H. injection H as H.
  apply string_app_inj_length in H as [H2 H3]; [|congruence].
  apply datetime_fields_eq; eapply zfill_str_inj; eauto; lia.
Qed.

Lemma strftime_page_inj (d d' : datetime) :
  valid d = true -> valid d' = true ->
  strftime d "%Y-%m-%d" = strftime d' "%Y-%m-%d" -> d = d'.
Proof.
  intros Hv Hv' H.
  destruct (valid_field_lengths d Hv) as (Hy & Hm & Hd).
  destruct (valid_field_lengths d' Hv') as (Hy' & Hm' & Hd').
  apply valid_bounds in Hv, Hv'.
  rewrite !strftime_page_format in H.
  apply string_app_inj_length in H as [H1 H]; [|congruence].
  simpl in H. injection H as H.
  apply string_app_inj_length in H as [H2 H]; [|congruence].
  simpl in H. injection H as H3.
  apply datetime_fields_eq; eapply zfill_str_inj; eauto; lia.
Qed.

(** ** The enumeration *)

Lemma append_day_spec (cfg : app_config) (d : datetime) (urls : list string) :
  append_day cfg (strftime d "%Y-%m%d") urls = urls ++ day_urls cfg d.
Proof.
  unfold append_day, day_urls.
  generalize (Py.range 1 (MAX_DEFAULT_JAIL_NUMBER cfg + 1)). intros nums.
  revert urls. induction nums as [|n nums IH]; intros urls; simpl.
  - now rewrite app_nil_r.
  - rewrite IH, <- app_assoc. reflexivity.
Qed.

Lemma scan_step (today c : datetime) :
  valid today = true -> valid c = true -> lt c today = true ->
  exists c', add_ONE_DAY c = Ok c' /\ valid c' = true /\ lt c c' = true
             /\ (scan_fuel c' today < scan_fuel c today)%nat.
Proof.
  intros Ht Hc Hlt.
  destruct (add_ONE_DAY_before c today Hc Ht Hlt) as [c' Hadd].
  pose proof (add_ONE_DAY_valid _ _ Hc Hadd) as Hc'.
  pose proof (add_ONE_DAY_lt _ _ Hadd) as Hlt'.
  exists c'. repeat split; try assumption.
  pose proof (day_index_lt _ _ Hc Hc' Hlt').
  pose proof (day_index_lt _ _ Hc Ht Hlt).
  unfold scan_fuel. lia.
Qed.

Lemma scan_fuel_pos (today c : datetime) :
  valid today = true -> valid c = true -> lt c today = true ->
  (0 < scan_fuel c today)%nat.
Proof.
  intros Ht Hc Hlt. pose proof (day_index_lt _ _ Hc Ht Hlt).
  unfold scan_fuel. lia.
Qed.

(** The fuel that [_generate_urls] gives is enough: the loop ends on its test,
    and it has appended the URLs of the days it visited. *)
Lemma scan_universe_runs (cfg : app_config) (today : datetime) (fuel : nat) :
  valid today = true ->
  forall (c : datetime) (urls : list string),
    valid c = true -> (scan_fuel c today <= fuel)%nat ->
    scan_universe cfg fuel today c urls
    = Ok (urls ++ flat_map (day_urls cfg) (scan_days fuel today c)).
Proof.
  intros Ht. induction fuel as [|fuel IH]; intros c urls Hc Hfuel;
    cbn [scan_universe scan_days].
  - destruct (lt c today) eqn:Hlt.
    + pose proof (scan_fuel_pos _ _ Ht Hc Hlt). lia.
    + cbn [flat_map]. now rewrite app_nil_r.
  - destruct (lt c today) eqn:Hlt.
    + destruct (scan_step _ _ Ht Hc Hlt) as (c' & Hadd & Hc' & _ & Hless).
      rewrite Hadd, bind_Ok, append_day_spec, IH by (assumption || lia).
      cbn [flat_map]. now rewrite <- app_assoc.
    + cbn [flat_map]. now rewrite app_nil_r.
Qed.

Lemma scan_days_enough (today : datetime) (fuel : nat) :
  valid today = true ->
  forall c : datetime,
    valid c = true -> (scan_fuel c today <= fuel)%nat ->
    scan_days fuel today c = days_between c today.
Proof.
  intros Ht. unfold days_between.
  induction fuel as [fuel IH] using lt_wf_ind. intros c Hc Hfuel.
  destruct (lt c today) eqn:Hlt.
  - destruct (scan_step _ _ Ht Hc Hlt) as (c' & Hadd & Hc' & _ & Hless).
    destruct fuel as [|fuel]; [lia|].
    destruct (scan_fuel c today) as [|k] eqn:Hk; [lia|].
    simpl. rewrite Hlt, Hadd. f_equal.
    rewrite (IH fuel) by (assumption || lia).
    rewrite (IH k); [reflexivity | | assumption | ]; lia.
  - destruct fuel, (scan_fuel c today); simpl; now rewrite Hlt.
Qed.

Lemma days_between_nil (start today : datetime) :
  lt start today = false -> days_between start today = [].
Proof.
  intros H. unfold days_between.
  destruct (scan_fuel start today); simpl; now rewrite H.
Qed.

Lemma days_between_cons (start today : datetime) :
  valid today = true -> valid start = true -> lt start today = true ->
  exists next, add_ONE_DAY start = Ok next /\ valid next = true
               /\ days_between start today = start :: days_between next today.
Proof.
  intros Ht Hc Hlt.
  destruct (scan_step _ _ Ht Hc Hlt) as (c' & Hadd & Hc' & _ & Hless).
  exists c'. repeat split; try assumption.
  unfold days_between at 1.
  destruct (scan_fuel start today) as [|k] eqn:Hk; [lia|].
  simpl. rewrite Hlt, Hadd. f_equal.
  apply scan_days_enough; (assumption || lia).
Qed.

(** The days visited are the calendar days from [start] to the eve of
    [today], each once and in order. *)
Lemma days_between_ind (today : datetime) (P : datetime -> list datetime -> Prop) :
  valid today = true ->
  (forall c, valid c = true -> lt c today = false -> P c []) ->
  (forall c c', valid c = true -> lt c today = true -> add_ONE_DAY c = Ok c' ->
                valid c' = true -> P c' (days_between c' today) ->
                P c (c :: days_between c' today)) ->
  forall c, valid c = true -> P c (days_between c today).
Proof.
  intros Ht Hnil Hcons.
  assert (H : forall n c, valid c = true -> (scan_fuel c today <= n)%nat ->
                          P c (days_between c today)).
  { induction n as [|n IH]; intros c Hc Hn.
    - destruct (lt c today) eqn:Hlt.
      + pose proof (scan_fuel_pos _ _ Ht Hc Hlt). lia.
      + rewrite days_between_nil by assumption. now apply Hnil.
    - destruct (lt c today) eqn:Hlt.
      + destruct (days_between_cons _ _ Ht Hc Hlt) as (c' & Hadd & Hc' & ->).
        destruct (scan_step _ _ Ht Hc Hlt) as (c'' & Hadd' & _ & _ & Hless).
        assert (c'' = c') by congruence. subst c''.
        apply Hcons; try assumption. apply IH; [assumption | lia].
      + rewrite days_between_nil by assumption. now apply Hnil. }
  intros c Hc. now apply (H (scan_fuel c today)).
Qed.

Lemma in_days_between (start today d : datetime) :
  valid today = true -> valid start = true ->
  In d (days_between start today)
  <-> valid d = true /\ le start d = true /\ lt d today = true.
Proof.
  intros Ht Hs. revert d.
  apply (days_between_ind today
           (fun c l => forall d, In d l
                       <-> valid d = true /\ le c d = true /\ lt d today = true));
    try assumption.
  - intros c Hc Hlt d. split; [intros []|].
    intros (Hd & Hle & Hdt).
    pose proof (le_lt_trans _ _ _ Hle Hdt). congruence.
  - intros c c' Hc Hlt Hadd Hc' IH d. simpl. rewrite IH. split.
    + intros [<- | (Hd & Hle & Hdt)].
      * auto using le_refl.
      * repeat split; try assumption.
        apply lt_le_incl. eapply lt_le_trans; [|exact Hle].
        now apply add_ONE_DAY_lt.
    + intros (Hd & Hle & Hdt).
      destruct (le_lt_or_eq _ _ Hle) as [Hlt' | ->]; [right | now left].
      repeat split; try assumption.
      exact (add_ONE_DAY_least c c' d Hc Hd Hadd Hlt').
Qed.

Lemma days_between_sorted (start today : datetime) :
  valid today = true -> valid start = true ->
  StronglySorted (fun a b => lt a b = true) (days_between start today).
Proof.
  intros Ht Hs.
  apply (days_between_ind today
           (fun c l => StronglySorted (fun a b => lt a b = true) l));
    try assumption.
  - constructor.
  - intros c c' Hc Hlt Hadd Hc' IH. constructor; [assumption|].
    apply Forall_forall. intros d Hd.
    apply list_elem_of_In, in_days_between in Hd as (_ & Hle & _); try assumption.
    eapply lt_le_trans; [|exact Hle]. now apply add_ONE_DAY_lt.
Qed.

Lemma strptime_valid (s : string) (d : datetime) :
  strptime s = Ok d -> valid d = true.
Proof.
  unfold strptime.
  destruct (match_Y s) as [[y r1]|]; [|discriminate].
  destruct (match_hyphen r1) as [r2|]; [|discriminate].
  destruct (match_m_hyphen r2) as [[m r3]|]; [|discriminate].
  destruct (match_d r3) as [[dd rest]|]; [|discriminate].
  destruct (negb (String.eqb rest "")); [discriminate|].
  destruct (valid (mk y m dd)) eqn:E; [|discriminate].
  now intros [= <-].
Qed.

Lemma comprehension_length {A B} (f : A -> Result B) (l : list A) (bs : list B) :
  comprehension f l = Ok bs -> length bs = length l.
Proof.
  revert bs. induction l as [|a l IH]; intros bs; simpl.
  - now intros [= <-].
  - destruct (f a) as [b|e]; [|discriminate]. simpl.
    destruct (comprehension f l) as [bs'|e]; [|discriminate]. simpl.
    intros [= <-]. simpl. now rewrite (IH bs').
Qed.

Lemma range_length (a b : Z) : length (Py.range a b) = Z.to_nat (b - a).
Proof. unfold Py.range. now rewrite length_fmap, length_seq. Qed.

Lemma in_range (a b n : Z) : In n (Py.range a b) <-> a <= n < b.
Proof.
  unfold Py.range. rewrite in_map_iff. split.
  - intros (i & <- & Hi). apply in_seq in Hi. lia.
  - intros Hn. exists (Z.to_nat (n - a)). split; [lia|]. apply in_seq. lia.
Qed.

Lemma range_lookup (a b n : Z) :
  a <= n < b -> Py.range a b !! Z.to_nat (n - a) = Some n.
Proof.
  intros Hn. unfold Py.range. rewrite list_lookup_fmap.
  rewrite lookup_seq_lt by lia. simpl. f_equal. lia.
Qed.

Lemma format_0d_nonneg (width : nat) (n : Z) :
  0 <= n -> Py.format_0d width n = Py.zfill width (Py.str n).
Proof. intros Hn. unfold Py.format_0d. now destruct (Z.ltb_spec n 0); [lia|]. Qed.

(** A jail number tells its day, and its number too. *)
Lemma jailnumber_date_inj (d d' : datetime) (n n' : Z) :
  valid d = true -> valid d' = true ->
  jailnumber (strftime d "%Y-%m%d") n = jailnumber (strftime d' "%Y-%m%d") n' ->
  d = d'.
Proof.
  intros Hv Hv' H. unfold jailnumber in H.
  apply string_app_inj_length in H as [H _].
  - now apply strftime_jail_inj.
  - now rewrite !strftime_jail_length.
Qed.

Lemma jailnumber_inj (d d' : datetime) (n n' : Z) :
  valid d = true -> valid d' = true -> 0 <= n -> 0 <= n' ->
  jailnumber (strftime d "%Y-%m%d") n = jailnumber (strftime d' "%Y-%m%d") n' ->
  d = d' /\ n = n'.
Proof.
  intros Hv Hv' Hn Hn' H. unfold jailnumber in H.
  apply string_app_inj_length in H as [H1 H2].
  - split; [now apply strftime_jail_inj | now apply format_0d_inj in H2].
  - now rewrite !strftime_jail_length.
Qed.

Lemma day_urls_length (cfg : app_config) (d : datetime) :
  length (day_urls cfg d) = Z.to_nat (MAX_DEFAULT_JAIL_NUMBER cfg).
Proof.
  unfold day_urls. rewrite length_fmap, range_length. f_equal. lia.
Qed.

Lemma day_urls_lookup (cfg : app_config) (d : datetime) (num : Z) :
  1 <= num <= MAX_DEFAULT_JAIL_NUMBER cfg ->
  day_urls cfg d !! Z.to_nat (num - 1)
  = Some (INMATE_URL_TEMPLATE cfg (jailnumber (strftime d "%Y-%m%d") num)).
Proof.
  intros Hn. unfold day_urls.
  rewrite list_lookup_fmap, range_lookup by lia. reflexivity.
Qed.

Lemma in_day_urls (cfg : app_config) (d : datetime) (u : string) :
  In u (day_urls cfg d)
  <-> exists num, 1 <= num <= MAX_DEFAULT_JAIL_NUMBER cfg
                  /\ u = INMATE_URL_TEMPLATE cfg (jailnumber (strftime d "%Y-%m%d") num).
Proof.
  unfold day_urls. rewrite in_map_iff. split.
  - intros (n & <- & Hn). apply in_range in Hn. exists n. split; [lia | reflexivity].
  - intros (n & Hn & ->). exists n. split; [reflexivity|]. apply in_range. lia.
Qed.

Lemma in_enumerate (cfg : app_config) (start today : datetime) (u : string) :
  valid today = true -> valid start = true ->
  In u (enumerate cfg start today)
  <-> exists d num,
        valid d = true /\ le start d = true /\ lt d today = true
        /\ 1 <= num <= MAX_DEFAULT_JAIL_NUMBER cfg
        /\ u = INMATE_URL_TEMPLATE cfg (jailnumber (strftime d "%Y-%m%d") num).
Proof.
  intros Ht Hs. unfold enumerate. rewrite in_flat_map. split.
  - intros (d & Hd & Hu). apply in_days_between in Hd; try assumption.
    apply in_day_urls in Hu as (num & Hn & ->). exists d, num. tauto.
  - intros (d & num & Hd & Hle & Hlt & Hn & ->). exists d. split.
    + now apply in_days_between.
    + apply in_day_urls. eauto.
Qed.

Lemma enumerate_nil (cfg : app_config) (start today : datetime) :
  le today start = true -> enumerate cfg start today = [].
Proof.
  intros H. unfold enumerate. rewrite days_between_nil; [reflexivity|].
  unfold le in H. now apply negb_true_iff in H.
Qed.

Lemma enumerate_cons (cfg : app_config) (start today : datetime) :
  valid today = true -> valid start = true -> lt start today = true ->
  exists next, add_ONE_DAY start = Ok next
               /\ enumerate cfg start today
                  = day_urls cfg start ++ enumerate cfg next today.
Proof.
  intros Ht Hs Hlt.
  destruct (days_between_cons _ _ Ht Hs Hlt) as (next & Hadd & _ & Hdays).
  exists next. split; [assumption|]. unfold enumerate. now rewrite Hdays.
Qed.

Lemma cursor_valid (D start : datetime) (seed : list string) :
  valid D = true -> cursor D seed = Ok start -> valid start = true.
Proof.
  intros HD. unfold cursor. destruct (negb (length seed =? 0)%nat).
  - now apply add_ONE_DAY_valid.
  - now intros [= <-].
Qed.

(** A run of [_generate_urls] whose seed resolves: the URLs of the seed, then
    the URLs of the days from the cursor to the eve of today, and the sample
    of that list in testing mode. *)
Lemma generate_urls_run (cfg : app_config) (reader : string -> list csv_row)
    (w : World) (self : InmatesSpider) (s : string) (f : seed_lines)
    (D start : datetime) (seed : list string) :
  valid (_today self) = true ->
  _get_seed_file cfg w = Ok (s, f) ->
  strptime s = Ok D ->
  comprehension (row_url cfg) (DictReader reader f) = Ok seed ->
  cursor D seed = Ok start ->
  _generate_urls cfg reader w self
  = Ok (sample self (seed ++ enumerate cfg start (_today self))).
Proof.
  intros Ht Hseed HD Hrows Hstart.
  pose proof (cursor_valid _ _ _ (strptime_valid _ _ HD) Hstart) as Hs.
  unfold _generate_urls. rewrite Hseed, bind_Ok. cbn beta iota.
  rewrite HD, bind_Ok, Hrows, bind_Ok.
  unfold cursor in Hstart. rewrite Hstart, bind_Ok.
  rewrite scan_universe_runs by (assumption || lia).
  rewrite scan_days_enough by (assumption || lia).
  rewrite bind_Ok. unfold sample, enumerate. now destruct (_testing self).
Qed.

(** ** Sample configurations and worlds *)

Example sample_reader_one_row :
  sample_reader ("Booking_Id" +:+ newline +:+ "A1" +:+ newline)
  = [ {[ "Booking_Id" := Some "A1" ]} ].
Proof. reflexivity. Qed.

(** ** The cursor and the end of the scan *)

(** C6: when the seed resolves to the date [D], the scan starts on the day
    after [D] if the seed gave at least one URL, and on [D] itself if it gave
    none; the seed gives as many URLs as its reader has rows, and a scan that
    starts on a day before today makes the URLs of that day first. *)
Theorem C6_cursor_start (cfg : app_config) (reader : string -> list csv_row)
    (w : World) (self : InmatesSpider) (s : string) (f : seed_lines)
    (D next : datetime) (seed : list string) :
  valid (_today self) = true ->
  _get_seed_file cfg w = Ok (s, f) ->
  strptime s = Ok D ->
  comprehension (row_url cfg) (DictReader reader f) = Ok seed ->
  add_ONE_DAY D = Ok next ->
  length seed = length (DictReader reader f)
  /\ (seed <> [] ->
      _generate_urls cfg reader w self
      = Ok (sample self (seed ++ enumerate cfg next (_today self))))
  /\ (seed = [] ->
      _generate_urls cfg reader w self
      = Ok (sample self (enumerate cfg D (_today self))))
  /\ (forall start, valid start = true -> lt start (_today self) = true ->
      exists rest, enumerate cfg start (_today self) = day_urls cfg start ++ rest).
Proof.
  intros Ht Hseed HD Hrows Hnext. split; [|split; [|split]].
  - eapply comprehension_length; eauto.
  - intros Hne. eapply generate_urls_run; eauto.
    unfold cursor. destruct seed; [contradiction | exact Hnext].
  - intros ->. now apply (generate_urls_run cfg reader w self s f D D []).
  - intros start Hs Hlt.
    destruct (enumerate_cons cfg _ _ Ht Hs Hlt) as (nx & _ & ->). eauto.
Qed.

Lemma C6_cursor_start_witness :
  _generate_urls (sample_config false "" 2 "2023-01-01") sample_reader
    (seeded_world (mk 2023 6 3) ["2023-05-31.csv"; "2023-06-01.csv"]
       ("Booking_Id" +:+ newline +:+ "A1" +:+ newline))
    (spider_on (mk 2023 6 3) (mk 2023 6 2) false)
  = Ok [sample_template "A1";
        sample_template "2023-0602001"; sample_template "2023-0602002"].
Proof.
  refine (proj1 (proj2
    (C6_cursor_start (sample_config false "" 2 "2023-01-01") sample_reader
       (seeded_world (mk 2023 6 3) ["2023-05-31.csv"; "2023-06-01.csv"]
          ("Booking_Id" +:+ newline +:+ "A1" +:+ newline))
       (spider_on (mk 2023 6 3) (mk 2023 6 2) false)
       "2023-06-01"
       (TextStream ("Booking_Id" +:+ newline +:+ "A1" +:+ newline))
       (mk 2023 6 1) (mk 2023 6 2) [sample_template "A1"]
       eq_refl eq_refl eq_refl eq_refl eq_refl)) _).
  discriminate.
Defined.

(** C7: when the seed resolves and the scan starts on [start], every URL that
    the scan adds is made for a calendar day before today, no jail number of
    such a day is the jail number of today or of a later day, and a scan that
    starts today or later adds nothing: the run returns the URLs of the seed
    alone. *)
Theorem C7_today_never_enumerated (cfg : app_config)
    (reader : string -> list csv_row) (w : World) (self : InmatesSpider)
    (s : string) (f : seed_lines) (D start : datetime) (seed : list string) :
  valid (_today self) = true ->
  _get_seed_file cfg w = Ok (s, f) ->
  strptime s = Ok D ->
  comprehension (row_url cfg) (DictReader reader f) = Ok seed ->
  cursor D seed = Ok start ->
  _generate_urls cfg reader w self
  = Ok (sample self (seed ++ enumerate cfg start (_today self)))
  /\ Forall (fun u => exists d num,
                 valid d = true /\ lt d (_today self) = true
                 /\ generated_for cfg d num u)
       (enumerate cfg start (_today self))
  /\ (forall d d' num num',
        valid d = true -> valid d' = true ->
        lt d (_today self) = true -> le (_today self) d' = true ->
        jailnumber (strftime d "%Y-%m%d") num
        <> jailnumber (strftime d' "%Y-%m%d") num')
  /\ (le (_today self) start = true ->
      enumerate cfg start (_today self) = []
      /\ _generate_urls cfg reader w self = Ok (sample self seed)).
Proof.
  intros Ht Hseed HD Hrows Hstart.
  pose proof (cursor_valid _ _ _ (strptime_valid _ _ HD) Hstart) as Hs.
  pose proof (generate_urls_run cfg reader w self s f D start seed
                Ht Hseed HD Hrows Hstart) as Hrun.
  split; [exact Hrun|]. split; [|split].
  - apply Forall_forall. intros u Hu.
    apply list_elem_of_In, in_enumerate in Hu; try assumption.
    destruct Hu as (d & num & Hd & _ & Hlt & _ & Hu). exists d, num. auto.
  - intros d d' num num' Hd Hd' Hlt Hle Heq.
    apply jailnumber_date_inj in Heq; try assumption. subst d'.
    pose proof (lt_le_trans _ _ _ Hlt Hle) as Hc.
    rewrite lt_irrefl in Hc. discriminate.
  - intros Hle. pose proof (enumerate_nil cfg _ _ Hle) as Hnil.
    split; [exact Hnil|]. now rewrite Hrun, Hnil, app_nil_r.
Qed.

Lemma C7_today_never_enumerated_witness :
  _generate_urls (sample_config false "" 50 "2023-01-01") sample_reader
    (empty_world (mk 2023 1 1)) (spider_on (mk 2023 1 1) (mk 2022 12 31) false)
  = Ok [].
Proof.
  exact (proj2 (proj2 (proj2 (proj2
    (C7_today_never_enumerated (sample_config false "" 50 "2023-01-01")
       sample_reader (empty_world (mk 2023 1 1))
       (spider_on (mk 2023 1 1) (mk 2022 12 31) false)
       "2023-01-01" EmptyList (mk 2023 1 1) (mk 2023 1 1) []
       eq_refl eq_refl eq_refl eq_refl eq_refl))) eq_refl)).
Defined.

(** ** The candidates of a day *)

(** C2, as stated, fails: in the scenario the run does not return A1 followed
    by the candidates 20230602001 to 20230602050; its first candidate is
    2023-0602001. *)
Lemma C2_counterexample :
  _generate_urls (sample_config false "" 50 "2023-01-01") sample_reader
    scenario_world scenario_spider
  <> Ok (sample_template "A1"
         :: ((fun num => sample_template (claimed_jailnumber (mk 2023 6 2) num))
               <$> Py.range 1 51)).
Proof.
  intros H.
  apply (f_equal (fun r => match r with
                           | Ok (_ :: u :: _) => u
                           | _ => ""
                           end)) in H.
  vm_compute in H. discriminate.
Qed.

(** C2, amended: in a run whose seed resolves, the list of which a testing run
    keeps a sample is made of the URLs of the seed and then, day after day and
    in order, of those of every calendar day from the cursor to the eve of
    today; a day has exactly [MAX_DEFAULT_JAIL_NUMBER] of them, and the one of
    number [num] is the template applied to the year on four digits, a hyphen,
    the month and the day on two digits each, and [num] zero-padded to three
    digits. *)
Theorem C2_candidates_per_day (cfg : app_config) (reader : string -> list csv_row)
    (w : World) (self : InmatesSpider) (s : string) (f : seed_lines)
    (D start : datetime) (seed : list string) :
  valid (_today self) = true ->
  _get_seed_file cfg w = Ok (s, f) ->
  strptime s = Ok D ->
  comprehension (row_url cfg) (DictReader reader f) = Ok seed ->
  cursor D seed = Ok start ->
  _generate_urls cfg reader w self
  = Ok (sample self
          (seed ++ flat_map (day_urls cfg) (days_between start (_today self))))
  /\ (forall d, In d (days_between start (_today self))
                <-> valid d = true /\ le start d = true
                    /\ lt d (_today self) = true)
  /\ StronglySorted (fun a b => lt a b = true) (days_between start (_today self))
  /\ (forall d,
        length (day_urls cfg d) = Z.to_nat (MAX_DEFAULT_JAIL_NUMBER cfg)
        /\ forall num, 1 <= num <= MAX_DEFAULT_JAIL_NUMBER cfg ->
             day_urls cfg d !! Z.to_nat (num - 1)
             = Some (INMATE_URL_TEMPLATE cfg
                       (Py.zfill 4 (Py.str (year d)) +:+ "-"
                        +:+ Py.zfill 2 (Py.str (month d))
                        +:+ Py.zfill 2 (Py.str (day d))
                        +:+ Py.zfill 3 (Py.str num)))).
Proof.
  intros Ht Hseed HD Hrows Hstart.
  pose proof (cursor_valid _ _ _ (strptime_valid _ _ HD) Hstart) as Hs.
  split; [|split; [|split]].
  - now rewrite (generate_urls_run cfg reader w self s f D start seed).
  - intros d. now apply in_days_between.
  - now apply days_between_sorted.
  - intros d. split; [apply day_urls_length|].
    intros num Hnum. rewrite day_urls_lookup by assumption.
    unfold jailnumber.
    rewrite strftime_jail_format, format_0d_nonneg by lia.
    now rewrite !string_app_assoc.
Qed.

Lemma C2_candidates_per_day_witness :
  _generate_urls (sample_config false "" 50 "2023-01-01") sample_reader
    scenario_world scenario_spider
  = Ok (sample_template "A1"
        :: ((fun num => sample_template ("2023-0602" +:+ Py.zfill 3 (Py.str num)))
              <$> Py.range 1 51)).
Proof.
  refine (eq_trans (proj1
    (C2_candidates_per_day (sample_config false "" 50 "2023-01-01") sample_reader
       scenario_world scenario_spider "2023-06-01"
       (TextStream ("Booking_Id" +:+ newline +:+ "A1" +:+ newline))
       (mk 2023 6 1) (mk 2023 6 2) [sample_template "A1"]
       eq_refl eq_refl eq_refl eq_refl eq_refl)) _).
  vm_compute. reflexivity.
Defined.

(** ** The seed *)

Lemma last_Some_length {A} (l : list A) (x : A) :
  last l = Some x -> (length l =? 0)%nat = false.
Proof. destruct l; [discriminate | reflexivity]. Qed.

Lemma get_seed_file_last_partition (cfg : app_config) (w : World)
    (marker s text : string) :
  last_partition cfg w marker s text ->
  _get_seed_file cfg w = Ok (s, TextStream text).
Proof.
  intros [names mk' s' text' Hs3 Hdir Hlast Hdate Hopen
         | manifest mk' s' text' Hs3 Hget Hlast Hdate Hopen];
    unfold _get_seed_file; rewrite Hs3.
  - unfold _get_local_seed_file. rewrite Hdir, bind_Ok.
    rewrite (last_Some_length _ _ Hlast).
    unfold Py.index_last. rewrite Hlast, bind_Ok, Hdate, bind_Ok, Hopen.
    reflexivity.
  - unfold _get_s3_seed_file. cbv zeta. rewrite Hget, bind_Ok.
    unfold Py.pop. rewrite Hlast, bind_Ok, Hdate, bind_Ok, Hopen. reflexivity.
Qed.

(** The text of a date is always found in a marker. *)
Lemma split_nonempty (sep : ascii) (s : string) : Py.split sep s <> [].
Proof.
  destruct s as [|c r]; simpl; [discriminate|].
  destruct (Ascii.eqb c sep); [discriminate|].
  destruct (Py.split sep r); discriminate.
Qed.

Lemma date_of_name_total (name : string) : exists s, date_of_name name = Ok s.
Proof.
  unfold date_of_name, Py.index_first.
  pose proof (split_nonempty "." name).
  destruct (Py.split "." name); [contradiction | eauto].
Qed.

Lemma date_of_url_total (url : string) : exists s, date_of_url url = Ok s.
Proof.
  unfold date_of_url, Py.index_last.
  pose proof (split_nonempty "/" url) as Hne.
  destruct (last (Py.split "/" url)) as [name|] eqn:Hlast.
  - rewrite bind_Ok. apply date_of_name_total.
  - apply last_None in Hlast. contradiction.
Qed.

(** C1, as stated, fails: the manifest lists the partition 2023-06-01, whose
    record list has no row; the run then returns candidates of 2023-06-01
    itself. *)
Lemma C1_counterexample :
  exists urls,
    _get_seed_file (sample_config false "" 2 "2023-01-01")
      (seeded_world (mk 2023 6 3) ["2023-06-01.csv"] ("Booking_Id" +:+ newline))
    = Ok ("2023-06-01", TextStream ("Booking_Id" +:+ newline))
    /\ strptime "2023-06-01" = Ok (mk 2023 6 1)
    /\ _generate_urls (sample_config false "" 2 "2023-01-01") sample_reader
         (seeded_world (mk 2023 6 3) ["2023-06-01.csv"] ("Booking_Id" +:+ newline))
         (spider_on (mk 2023 6 3) (mk 2023 6 2) false)
       = Ok urls
    /\ In (sample_template (jailnumber (strftime (mk 2023 6 1) "%Y-%m%d") 1)) urls.
Proof.
  eexists. split; [reflexivity|]. split; [reflexivity|].
  split; [vm_compute; reflexivity|]. vm_compute. auto.
Qed.

(** C1, amended: when the manifest is not empty, [_get_seed_file] returns the
    text of the date of its last partition, which [_generate_urls] parses;
    when the records of that partition give at least one URL, every URL that
    the scan adds is made for a calendar day after that date, and no jail
    number of such a day is the jail number of that date or of an earlier
    day; when they give none, the scan starts on that date itself. *)
Theorem C1_resume_after_seed (cfg : app_config) (reader : string -> list csv_row)
    (w : World) (self : InmatesSpider) (marker s text : string)
    (D : datetime) (seed : list string) :
  valid (_today self) = true ->
  last_partition cfg w marker s text ->
  strptime s = Ok D ->
  comprehension (row_url cfg) (reader text) = Ok seed ->
  _get_seed_file cfg w = Ok (s, TextStream text)
  /\ (seed <> [] ->
      (forall next, add_ONE_DAY D = Ok next ->
         _generate_urls cfg reader w self
         = Ok (sample self (seed ++ enumerate cfg next (_today self)))
         /\ Forall (fun u => exists d num,
                        valid d = true /\ lt D d = true
                        /\ lt d (_today self) = true /\ generated_for cfg d num u)
              (enumerate cfg next (_today self)))
      /\ (forall e, add_ONE_DAY D = Raise e ->
            _generate_urls cfg reader w self = Raise e))
  /\ (forall d d' num num',
        valid d = true -> valid d' = true ->
        lt D d = true -> le d' D = true ->
        jailnumber (strftime d "%Y-%m%d") num
        <> jailnumber (strftime d' "%Y-%m%d") num')
  /\ (seed = [] ->
      _generate_urls cfg reader w self
      = Ok (sample self (enumerate cfg D (_today self)))).
Proof.
  intros Ht Hlast HD Hrows.
  pose proof (get_seed_file_last_partition _ _ _ _ _ Hlast) as Hseed.
  pose proof (strptime_valid _ _ HD) as HDv.
  split; [exact Hseed|]. split; [|split].
  - intros Hne. split.
    + intros next Hnext.
      assert (Hcur : cursor D seed = Ok next).
      { unfold cursor. destruct seed; [contradiction | exact Hnext]. }
      split; [now apply (generate_urls_run cfg reader w self s (TextStream text) D)|].
      pose proof (add_ONE_DAY_valid _ _ HDv Hnext) as Hnv.
      apply Forall_forall. intros u Hu.
      apply list_elem_of_In, in_enumerate in Hu; try assumption.
      destruct Hu as (d & num & Hd & Hle & Hlt & _ & Hu). exists d, num.
      repeat split; try assumption.
      eapply lt_le_trans; [|exact Hle]. now apply add_ONE_DAY_lt.
    + intros e He. unfold _generate_urls.
      rewrite Hseed, bind_Ok. cbn beta iota.
      rewrite HD, bind_Ok. cbn [DictReader]. rewrite Hrows, bind_Ok.
      destruct seed; [contradiction|]. cbn [length Nat.eqb negb].
      now rewrite He.
  - intros d d' num num' Hd Hd' Hlt Hle Heq.
    apply jailnumber_date_inj in Heq; try assumption. subst d'.
    pose proof (lt_le_trans _ _ _ Hlt Hle) as Hc.
    rewrite lt_irrefl in Hc. discriminate.
  - intros ->.
    now apply (generate_urls_run cfg reader w self s (TextStream text) D D []).
Qed.

Lemma C1_resume_after_seed_witness :
  _get_seed_file (sample_config true "" 2 "2023-01-01")
    (s3_world (mk 2023 6 3)
       ("https://s3.amazonaws.com/bucket/daily/2023-05-31.csv" +:+ newline
        +:+ "https://s3.amazonaws.com/bucket/daily/2023-06-01.csv" +:+ newline)
       ("Booking_Id" +:+ newline +:+ "A1" +:+ newline))
  = Ok ("2023-06-01", TextStream ("Booking_Id" +:+ newline +:+ "A1" +:+ newline)).
Proof.
  refine (proj1
    (C1_resume_after_seed (sample_config true "" 2 "2023-01-01") sample_reader
       (s3_world (mk 2023 6 3)
          ("https://s3.amazonaws.com/bucket/daily/2023-05-31.csv" +:+ newline
           +:+ "https://s3.amazonaws.com/bucket/daily/2023-06-01.csv" +:+ newline)
          ("Booking_Id" +:+ newline +:+ "A1" +:+ newline))
       (spider_on (mk 2023 6 3) (mk 2023 6 2) false)
       "https://s3.amazonaws.com/bucket/daily/2023-06-01.csv" "2023-06-01"
       ("Booking_Id" +:+ newline +:+ "A1" +:+ newline)
       (mk 2023 6 1) [sample_template "A1"]
       eq_refl _ eq_refl eq_refl)).
  eapply last_s3; reflexivity.
Defined.

(** ** The fallback *)

(** On the local file system, a seed directory that is absent or empty gives
    the fallback date and no row, and the scan starts on the fallback date. *)
Lemma local_seed_absent (cfg : app_config) (w : World) :
  USE_S3_STORAGE cfg = false ->
  os_listdir w "data/daily" = Raise FileNotFoundError
  \/ os_listdir w "data/daily" = Ok [] ->
  _get_seed_file cfg w = Ok (FALLBACK_START_DATE cfg, EmptyList).
Proof.
  intros Hs3 Hdir. unfold _get_seed_file, _get_local_seed_file. rewrite Hs3.
  destruct Hdir as [-> | ->]; reflexivity.
Qed.

Lemma local_fallback_run (cfg : app_config) (reader : string -> list csv_row)
    (w : World) (self : InmatesSpider) (D : datetime) :
  valid (_today self) = true ->
  USE_S3_STORAGE cfg = false ->
  os_listdir w "data/daily" = Raise FileNotFoundError
  \/ os_listdir w "data/daily" = Ok [] ->
  strptime (FALLBACK_START_DATE cfg) = Ok D ->
  _generate_urls cfg reader w self
  = Ok (sample self (enumerate cfg D (_today self))).
Proof.
  intros Ht Hs3 Hdir HD.
  now apply (generate_urls_run cfg reader w self
               (FALLBACK_START_DATE cfg) EmptyList D D []);
    [| apply local_seed_absent | | |].
Qed.

(** C4, on S3: when the manifest is empty, [_get_seed_file] raises
    [IndexError] where the fallback date is expected, and so does
    [_generate_urls]. *)
Theorem C4_s3_empty_manifest_raises (cfg : app_config)
    (reader : string -> list csv_row) (w : World) (self : InmatesSpider) :
  USE_S3_STORAGE cfg = true ->
  requests_get_text w (manifest_url cfg) = Ok "" ->
  _get_seed_file cfg w = Raise IndexError
  /\ _generate_urls cfg reader w self = Raise IndexError.
Proof.
  intros Hs3 Hget.
  assert (H : _get_seed_file cfg w = Raise IndexError).
  { unfold _get_seed_file, _get_s3_seed_file. rewrite Hs3. cbv zeta.
    rewrite Hget. reflexivity. }
  split; [exact H|]. unfold _generate_urls. now rewrite H.
Qed.

Lemma C4_s3_empty_manifest_raises_witness :
  _generate_urls (sample_config true "" 50 "2023-01-01") sample_reader
    (s3_world (mk 2023 1 2) "" "") (spider_on (mk 2023 1 2) (mk 2023 1 1) false)
  = Raise IndexError.
Proof.
  exact (proj2
    (C4_s3_empty_manifest_raises (sample_config true "" 50 "2023-01-01")
       sample_reader (s3_world (mk 2023 1 2) "" "")
       (spider_on (mk 2023 1 2) (mk 2023 1 1) false) eq_refl eq_refl)).
Defined.

Example local_fallback_first_day :
  _generate_urls (sample_config false "" 2 "2023-01-01") sample_reader
    (empty_world (mk 2023 1 2)) (spider_on (mk 2023 1 2) (mk 2023 1 1) false)
  = Ok [sample_template "2023-0101001"; sample_template "2023-0101002"].
Proof. vm_compute. reflexivity. Qed.

(** ** The sample of a testing run *)

Lemma sample_suffix (self : InmatesSpider) (urls : list string) :
  sample self urls `suffix_of` urls.
Proof.
  unfold sample, Py.slice_from. destruct (_testing self); [apply suffix_drop | done].
Qed.

Lemma sample_long (self : InmatesSpider) (urls : list string) :
  _testing self = true -> (600 <= length urls)%nat ->
  sample self urls = drop (length urls - 600) urls.
Proof.
  intros Htest Hlen. unfold sample, Py.slice_from. rewrite Htest.
  destruct (Z.ltb_spec (Z.of_nat (length urls) - 600) 0); [lia|].
  f_equal. lia.
Qed.

Lemma sample_wraps (self : InmatesSpider) (urls : list string) :
  _testing self = true -> (300 <= length urls < 600)%nat ->
  sample self urls = drop (2 * length urls - 600) urls.
Proof.
  intros Htest Hlen. unfold sample, Py.slice_from. rewrite Htest.
  destruct (Z.ltb_spec (Z.of_nat (length urls) - 600) 0); [|lia].
  f_equal. lia.
Qed.

(** C8, on a run of 599 URLs: with no seed, one day to scan and 599 numbers a
    day, the run returns 599 URLs, and the testing run returns the last one
    alone, where the last 600 of them are all of them. *)
Theorem C8_sample_of_short_run :
  exists full,
    _generate_urls (sample_config false "" 599 "2023-01-01") sample_reader
      (empty_world (mk 2023 1 2)) (spider_on (mk 2023 1 2) (mk 2023 1 1) false)
    = Ok full
    /\ length full = 599%nat
    /\ _generate_urls (sample_config false "" 599 "2023-01-01") sample_reader
         (empty_world (mk 2023 1 2)) (spider_on (mk 2023 1 2) (mk 2023 1 1) true)
       = Ok [sample_template "2023-0101599"].
Proof.
  eexists. split; [vm_compute; reflexivity|].
  split; vm_compute; reflexivity.
Qed.

(** ** The item of a page *)

Lemma parse_after_saves (cfg : app_config) (InmatePage : string -> Inmate)
    (w : World) (self : InmatesSpider) (body : string) :
  saves_succeed cfg w self body (InmatePage body) ->
  parse cfg InmatePage w self body
  = (incomplete ← _is_complete_record self (InmatePage body);
     Ok [make_item (InmatePage body) incomplete]).
Proof.
  intros [Hlocal Hs3]. unfold parse. cbv zeta.
  destruct (USE_LOCAL_STORAGE cfg); [rewrite Hlocal by reflexivity|];
    rewrite bind_Ok;
    (destruct (USE_S3_STORAGE cfg); [rewrite Hs3 by reflexivity|]);
    now rewrite bind_Ok.
Qed.

(** C3, as stated, fails: the page is fetched and extracted, its booking date
    parses, the write to the local file system fails, and [parse] raises the
    error of the write instead of yielding the item. *)
Lemma C3_counterexample :
  strptime (booking_date (sample_page "2023-06-01" "2023-0601001"))
  = Ok (mk 2023 6 1)
  /\ _save_local (read_only_world (mk 2023 6 3))
       (spider_on (mk 2023 6 3) (mk 2023 6 2) false) "2023-0601001"
       (sample_page "2023-06-01" "2023-0601001")
     = Raise OSError
  /\ parse (sample_config false "" 50 "2023-01-01") (sample_page "2023-06-01")
       (read_only_world (mk 2023 6 3))
       (spider_on (mk 2023 6 3) (mk 2023 6 2) false) "2023-0601001"
     = Raise OSError.
Proof. repeat split; reflexivity. Qed.

(** C3, amended: [parse] yields the item of a page, built from the extracted
    fields, when every save that the configuration enables succeeds and the
    booking date parses; when an enabled save raises, [parse] raises the same
    error and yields no item. *)
Theorem C3_item_after_saves (cfg : app_config) (InmatePage : string -> Inmate)
    (w : World) (self : InmatesSpider) (body : string) :
  (forall b,
     saves_succeed cfg w self body (InmatePage body) ->
     strptime (booking_date (InmatePage body)) = Ok b ->
     parse cfg InmatePage w self body
     = Ok [make_item (InmatePage body) (lt b (_yesterday self))])
  /\ (forall e,
        USE_LOCAL_STORAGE cfg = true ->
        _save_local w self body (InmatePage body) = Raise e ->
        parse cfg InmatePage w self body = Raise e)
  /\ (forall e,
        (USE_LOCAL_STORAGE cfg = true ->
         _save_local w self body (InmatePage body) = Ok ()) ->
        USE_S3_STORAGE cfg = true ->
        _save_to_s3 cfg w self body (InmatePage body) = Raise e ->
        parse cfg InmatePage w self body = Raise e).
Proof.
  split; [|split].
  - intros b Hsaves Hb. rewrite parse_after_saves by assumption.
    unfold _is_complete_record. now rewrite Hb.
  - intros e Hlocal Hsave. unfold parse. cbv zeta. now rewrite Hlocal, Hsave.
  - intros e Hlocal Hs3 Hsave. unfold parse. cbv zeta.
    destruct (USE_LOCAL_STORAGE cfg); [rewrite Hlocal by reflexivity|];
      now rewrite bind_Ok, Hs3, Hsave.
Qed.

Lemma C3_item_after_saves_witness :
  parse (sample_config false "" 50 "2023-01-01") (sample_page "2023-06-01")
    (empty_world (mk 2023 6 3)) (spider_on (mk 2023 6 3) (mk 2023 6 2) false)
    "2023-0601001"
  = Ok [make_item (sample_page "2023-06-01" "2023-0601001") true]
  /\ parse (sample_config false "" 50 "2023-01-01") (sample_page "2023-06-01")
       (read_only_world (mk 2023 6 3))
       (spider_on (mk 2023 6 3) (mk 2023 6 2) false) "2023-0601001"
     = Raise OSError.
Proof.
  pose proof (C3_item_after_saves (sample_config false "" 50 "2023-01-01")
                (sample_page "2023-06-01") (empty_world (mk 2023 6 3))
                (spider_on (mk 2023 6 3) (mk 2023 6 2) false) "2023-0601001")
    as (Hok & _).
  pose proof (C3_item_after_saves (sample_config false "" 50 "2023-01-01")
                (sample_page "2023-06-01") (read_only_world (mk 2023 6 3))
                (spider_on (mk 2023 6 3) (mk 2023 6 2) false) "2023-0601001")
    as (_ & Hraise & _).
  split.
  - apply (Hok (mk 2023 6 1)); [split; [reflexivity | discriminate] | reflexivity].
  - apply Hraise; reflexivity.
Defined.

(** C5: in a spider initialised today, the flag [Incomplete] of the item of a
    page is the comparison of its booking date with the day before today,
    which is the one calendar day whose next day is today, and is the
    [_yesterday] of the spider: the flag is true exactly when the booking date
    is before that day, and false on that day itself. *)
Theorem C5_incomplete_flag (cfg : app_config) (InmatePage : string -> Inmate)
    (w : World) (testing : bool) (self : InmatesSpider) (body : string)
    (b : datetime) :
  valid (date_today w) = true ->
  __init__ w testing = Ok self ->
  strptime (booking_date (InmatePage body)) = Ok b ->
  saves_succeed cfg w self body (InmatePage body) ->
  exists yesterday item,
    valid yesterday = true
    /\ add_ONE_DAY yesterday = Ok (date_today w)
    /\ (forall y, valid y = true -> add_ONE_DAY y = Ok (date_today w) ->
                  y = yesterday)
    /\ _yesterday self = yesterday
    /\ _is_complete_record self (InmatePage body) = Ok (lt b yesterday)
    /\ parse cfg InmatePage w self body = Ok [item]
    /\ (Incomplete item = true <-> lt b yesterday = true)
    /\ (b = yesterday -> Incomplete item = false).
Proof.
  intros Ht Hinit Hb Hsaves. unfold __init__ in Hinit. cbv zeta in Hinit.
  destruct (sub_ONE_DAY (date_today w)) as [y|e] eqn:Hy; [|discriminate].
  rewrite bind_Ok in Hinit. injection Hinit as <-.
  destruct (sub_ONE_DAY_add _ _ Ht Hy) as [Hadd Hyv].
  exists y, (make_item (InmatePage body) (lt b y)).
  split; [exact Hyv|]. split; [exact Hadd|].
  split; [intros y' Hy' Hadd'; exact (add_ONE_DAY_inj y' y _ Hy' Hyv Hadd' Hadd)|].
  split; [reflexivity|].
  assert (Hflag : _is_complete_record
                    {| _today := date_today w; _yesterday := y;
                       _testing := testing |} (InmatePage body)
                  = Ok (lt b y)).
  { unfold _is_complete_record. now rewrite Hb. }
  split; [exact Hflag|]. split.
  - rewrite parse_after_saves by assumption. now rewrite Hflag.
  - split; [reflexivity|]. intros ->. apply lt_irrefl.
Qed.

Lemma C5_incomplete_flag_witness :
  (exists item,
     parse (sample_config false "" 50 "2023-01-01") (sample_page "2023-06-01")
       (empty_world (mk 2023 6 3))
       (spider_on (mk 2023 6 3) (mk 2023 6 2) false) "2023-0601001"
     = Ok [item]
     /\ Incomplete item = true)
  /\ (exists item,
        parse (sample_config false "" 50 "2023-01-01") (sample_page "2023-06-02")
          (empty_world (mk 2023 6 3))
          (spider_on (mk 2023 6 3) (mk 2023 6 2) false) "2023-0602001"
        = Ok [item]
        /\ Incomplete item = false).
Proof.
  split.
  - destruct (C5_incomplete_flag (sample_config false "" 50 "2023-01-01")
                (sample_page "2023-06-01") (empty_world (mk 2023 6 3)) false
                (spider_on (mk 2023 6 3) (mk 2023 6 2) false) "2023-0601001"
                (mk 2023 6 1) eq_refl eq_refl eq_refl
                (conj (fun _ => eq_refl) (fun H => False_ind _ (diff_false_true H))))
      as (y & item & _ & _ & _ & Hy & _ & Hparse & Hflag & _).
    exists item. split; [exact Hparse|].
    apply Hflag. rewrite <- Hy. reflexivity.
  - destruct (C5_incomplete_flag (sample_config false "" 50 "2023-01-01")
                (sample_page "2023-06-02") (empty_world (mk 2023 6 3)) false
                (spider_on (mk 2023 6 3) (mk 2023 6 2) false) "2023-0602001"
                (mk 2023 6 2) eq_refl eq_refl eq_refl
                (conj (fun _ => eq_refl) (fun H => False_ind _ (diff_false_true H))))
      as (y & item & _ & _ & _ & Hy & _ & Hparse & _ & Hsame).
    exists item. split; [exact Hparse|]. apply Hsame. exact Hy.
Defined.

Example incomplete_two_days_before :
  _is_complete_record (spider_on (mk 2023 6 3) (mk 2023 6 2) false)
    (sample_page "2023-06-01" "") = Ok true.
Proof. reflexivity. Qed.

Example incomplete_the_day_before :
  _is_complete_record (spider_on (mk 2023 6 3) (mk 2023 6 2) false)
    (sample_page "2023-06-02" "") = Ok false.
Proof. reflexivity. Qed.

(** ** The names of the stored pages *)

Lemma string_app_inv_head (a b b' : string) : a +:+ b = a +:+ b' -> b = b'.
Proof. induction a as [|c a IH]; simpl; [auto | intros [= H]; auto]. Qed.

(** C9: in one run, two pages with the same file name have the same booking
    identifier; and across runs on calendar days, two pages with the same
    file name have the same day and the same booking identifier. *)
Theorem C9_page_filename_injective :
  (forall (self : InmatesSpider) (inmate inmate' : Inmate),
     _generate_page_filename self inmate = _generate_page_filename self inmate' ->
     booking_id inmate = booking_id inmate')
  /\ (forall (self self' : InmatesSpider) (inmate inmate' : Inmate),
        valid (_today self) = true -> valid (_today self') = true ->
        _generate_page_filename self inmate
        = _generate_page_filename self' inmate' ->
        _today self = _today self' /\ booking_id inmate = booking_id inmate').
Proof.
  split.
  - intros self inmate inmate' H. unfold _generate_page_filename in H.
    apply string_app_inv_head, string_app_inv_head in H.
    now apply string_app_inv_tail in H.
  - intros self self' inmate inmate' Hv Hv' H.
    unfold _generate_page_filename in H.
    apply string_app_inj_length in H as [Hd H];
      [|now rewrite !strftime_page_length].
    split; [now apply strftime_page_inj|].
    apply string_app_inv_head in H. now apply string_app_inv_tail in H.
Qed.

Lemma C9_page_filename_injective_witness :
  _generate_page_filename (spider_on (mk 2023 6 3) (mk 2023 6 2) false)
    (sample_page "2023-06-01" "2023-0601001")
  = "2023-06-03-2023-0601001.html"
  /\ (_generate_page_filename (spider_on (mk 2023 6 3) (mk 2023 6 2) false)
        (sample_page "2023-06-01" "2023-0601001")
      = _generate_page_filename (spider_on (mk 2023 6 3) (mk 2023 6 2) false)
          (sample_page "2023-06-02" "2023-0601001") ->
      booking_id (sample_page "2023-06-01" "2023-0601001")
      = booking_id (sample_page "2023-06-02" "2023-0601001")).
Proof.
  split; [reflexivity|].
  exact (proj1 C9_page_filename_injective
           (spider_on (mk 2023 6 3) (mk 2023 6 2) false)
           (sample_page "2023-06-01" "2023-0601001")
           (sample_page "2023-06-02" "2023-0601001")).
Defined.

(** ** The key of a page on S3 *)

(** C10, as stated, fails: with the target [/] the key given to the upload
    begins with a slash. *)
Lemma C10_counterexample :
  s3_key (sample_config true "/" 50 "2023-01-01")
    (spider_on (mk 2023 6 3) (mk 2023 6 2) false)
    (sample_page "2023-06-01" "2023-0601001")
  = "/raw/2023-06-03-2023-0601001.html"
  /\ Py.startswith "/"
       (s3_key (sample_config true "/" 50 "2023-01-01")
          (spider_on (mk 2023 6 3) (mk 2023 6 2) false)
          (sample_page "2023-06-01" "2023-0601001")) = true.
Proof. split; reflexivity. Qed.

(** C10, amended: [_save_to_s3] uploads under the key made of the target,
    [/raw/] and the file name, less its first character when that is a slash;
    with an empty target the key is [raw/] and the file name; and the key
    begins with a slash exactly when the target is a slash followed by
    nothing or by another slash. *)
Theorem C10_s3_key (cfg : app_config) (w : World) (self : InmatesSpider)
    (body : string) (inmate : Inmate) :
  _save_to_s3 cfg w self body inmate
  = upload_fileobj w body (s3_key cfg self inmate)
  /\ (TARGET cfg = "" ->
      s3_key cfg self inmate = "raw/" +:+ _generate_page_filename self inmate)
  /\ (Py.startswith "/" (s3_key cfg self inmate) = true
      <-> exists rest, TARGET cfg = String "/" rest
                       /\ (rest = "" \/ Py.startswith "/" rest = true)).
Proof.
  split; [reflexivity|]. unfold s3_key. cbv zeta.
  destruct (TARGET cfg) as [|c rest] eqn:Htarget.
  - split; [reflexivity|]. simpl. split; [discriminate|].
    intros (r & Hr & _). discriminate.
  - split; [discriminate|]. simpl.
    destruct (Ascii.eqb_spec c "/") as [-> | Hc].
    + simpl. split.
      * intros H. exists rest. split; [reflexivity|].
        destruct rest; [now left | right; exact H].
      * intros (r & [= <-] & [-> | Hr]); [reflexivity|].
        destruct rest; [discriminate | exact Hr].
    + simpl. destruct (Ascii.eqb_spec c "/") as [-> | _]; [contradiction|].
      split; [discriminate|]. intros (r & [= Hc' _] & _). contradiction.
Qed.

Lemma C10_s3_key_witness :
  s3_key (sample_config true "" 50 "2023-01-01")
    (spider_on (mk 2023 6 3) (mk 2023 6 2) false)
    (sample_page "2023-06-01" "2023-0601001")
  = "raw/2023-06-03-2023-0601001.html".
Proof.
  exact (proj1 (proj2
    (C10_s3_key (sample_config true "" 50 "2023-01-01") (empty_world (mk 2023 6 3))
       (spider_on (mk 2023 6 3) (mk 2023 6 2) false) "body"
       (sample_page "2023-06-01" "2023-0601001"))) eq_refl).
Defined.

(** ** The choice of the seed file *)

Lemma string_leb_cons (x y : ascii) (a b : string) :
  String.leb (String x a) (String y b)
  = match N.compare (N_of_ascii x) (N_of_ascii y) with
    | Eq => String.leb a b
    | Lt => true
    | Gt => false
    end.
Proof.
  unfold String.leb. simpl. unfold Ascii.compare.
  now destruct (N.compare (N_of_ascii x) (N_of_ascii y)).
Qed.

Lemma string_leb_trans (a b c : string) :
  String.leb a b = true -> String.leb b c = true -> String.leb a c = true.
Proof.
  revert b c. induction a as [|x a IH]; intros b c Hab Hbc.
  - now destruct c.
  - destruct b as [|y b]; [discriminate|]. destruct c as [|z c]; [discriminate|].
    rewrite string_leb_cons in *.
    destruct (N.compare_spec (N_of_ascii x) (N_of_ascii y)) as [Hxy|Hxy|Hxy];
      destruct (N.compare_spec (N_of_ascii y) (N_of_ascii z)) as [Hyz|Hyz|Hyz];
      destruct (N.compare_spec (N_of_ascii x) (N_of_ascii z)) as [Hxz|Hxz|Hxz];
      try discriminate; try reflexivity; try lia.
    now apply (IH b c).
Qed.

Lemma insert_sorted_elem_of (x y : string) (l : list string) :
  y ∈ Py.insert_sorted x l <-> y = x \/ y ∈ l.
Proof.
  induction l as [|z l IH]; simpl.
  - rewrite elem_of_cons, elem_of_nil. tauto.
  - destruct (String.leb x z); rewrite !elem_of_cons; [tauto|].
    rewrite IH. tauto.
Qed.

Lemma sorted_elem_of (y : string) (l : list string) : y ∈ Py.sorted l <-> y ∈ l.
Proof.
  induction l as [|x l IH]; simpl; [reflexivity|].
  rewrite insert_sorted_elem_of, IH, elem_of_cons. tauto.
Qed.

Lemma string_leb_refl (a : string) : String.leb a a = true.
Proof. destruct (String.leb_total a a); assumption. Qed.

Lemma insert_sorted_last (x : string) (l : list string) :
  last_is_greatest l -> last_is_greatest (Py.insert_sorted x l).
Proof.
  induction l as [|z l IH]; intros Hl m Hm y Hy; simpl in *.
  - injection Hm as <-. apply list_elem_of_singleton in Hy as ->.
    apply string_leb_refl.
  - destruct (String.leb x z) eqn:Hxz.
    + assert (Hzm : String.leb z m = true).
      { apply Hl; [|left]. now rewrite last_cons_cons in Hm. }
      rewrite last_cons_cons in Hm.
      apply elem_of_cons in Hy as [-> | Hy]; [|now apply Hl].
      now apply (string_leb_trans _ z).
    + assert (Hzx : String.leb z x = true).
      { destruct (String.leb_total x z); congruence. }
      assert (Htail : last_is_greatest l).
      { intros m' Hm' y' Hy'. apply Hl; [|now right].
        destruct l; [discriminate | exact Hm']. }
      assert (Hlast : last (Py.insert_sorted x l) = Some m).
      { destruct (Py.insert_sorted x l) eqn:E; [|exact Hm].
        destruct l; simpl in E; [discriminate|].
        destruct (String.leb x s); discriminate. }
      apply elem_of_cons in Hy as [-> | Hy]; [|now apply (IH Htail)].
      apply (string_leb_trans _ x); [assumption|].
      apply (IH Htail); [assumption|]. apply insert_sorted_elem_of. now left.
Qed.

Lemma sorted_last_greatest (l : list string) : last_is_greatest (Py.sorted l).
Proof.
  induction l as [|x l IH]; simpl.
  - intros m Hm. discriminate.
  - now apply insert_sorted_last.
Qed.

Lemma sorted_last_permutation (l l' : list string) :
  l ≡ₚ l' -> last (Py.sorted l) = last (Py.sorted l').
Proof.
  intros Hperm.
  destruct (last (Py.sorted l)) as [m|] eqn:Hm;
    destruct (last (Py.sorted l')) as [m'|] eqn:Hm'.
  - f_equal. apply String.leb_antisym.
    + apply (sorted_last_greatest l' m' Hm'). apply sorted_elem_of.
      rewrite <- Hperm. now apply sorted_elem_of, last_Some_elem_of.
    + apply (sorted_last_greatest l m Hm). apply sorted_elem_of.
      rewrite Hperm. now apply sorted_elem_of, last_Some_elem_of.
  - apply last_None in Hm'.
    assert (Hin : m ∈ Py.sorted l').
    { apply sorted_elem_of. rewrite <- Hperm.
      now apply sorted_elem_of, last_Some_elem_of. }
    rewrite Hm' in Hin. inversion Hin.
  - apply last_None in Hm.
    assert (Hin : m' ∈ Py.sorted l).
    { apply sorted_elem_of. rewrite Hperm.
      now apply sorted_elem_of, last_Some_elem_of. }
    rewrite Hm in Hin. inversion Hin.
  - reflexivity.
Qed.

Lemma sorted_last_Some (names : list string) :
  names <> [] -> exists marker, last (Py.sorted names) = Some marker.
Proof.
  intros Hne. destruct (last (Py.sorted names)) as [m|] eqn:Hlast; [eauto|].
  apply last_None in Hlast. destruct names as [|n names]; [contradiction|].
  assert (Hin : n ∈ Py.sorted (n :: names)) by (apply sorted_elem_of; left).
  rewrite Hlast in Hin. inversion Hin.
Qed.

Lemma local_seed_file_listing (cfg : app_config) (w : World)
    (names : list string) (marker : string) :
  USE_S3_STORAGE cfg = false ->
  os_listdir w "data/daily" = Ok names ->
  last (Py.sorted names) = Some marker ->
  _get_seed_file cfg w
  = (s ← date_of_name marker;
     text ← open_read w (Py.path_join "data/daily" marker);
     Ok (s, TextStream text)).
Proof.
  intros Hs3 Hdir Hlast. unfold _get_seed_file, _get_local_seed_file.
  rewrite Hs3, Hdir, bind_Ok, (last_Some_length _ _ Hlast).
  unfold Py.index_last. now rewrite Hlast, bind_Ok.
Qed.

(** X5: on the local file system the seed is the file of [data/daily] whose
    name is the greatest in the order of the code points, whatever the order
    in which the directory is listed. *)
Theorem X5_local_seed_greatest_name (cfg : app_config) (w : World)
    (names : list string) :
  USE_S3_STORAGE cfg = false ->
  os_listdir w "data/daily" = Ok names ->
  names <> [] ->
  exists marker,
    In marker names
    /\ (forall name, In name names -> String.leb name marker = true)
    /\ _get_seed_file cfg w
       = (s ← date_of_name marker;
          text ← open_read w (Py.path_join "data/daily" marker);
          Ok (s, TextStream text))
    /\ (forall (w' : World) (names' : list string),
          os_listdir w' "data/daily" = Ok names' ->
          names ≡ₚ names' ->
          (forall path, open_read w' path = open_read w path) ->
          _get_seed_file cfg w' = _get_seed_file cfg w).
Proof.
  intros Hs3 Hdir Hne.
  destruct (sorted_last_Some names Hne) as [marker Hlast].
  exists marker. split; [|split; [|split]].
  - now apply list_elem_of_In, sorted_elem_of, last_Some_elem_of.
  - intros name Hname. apply (sorted_last_greatest names marker Hlast).
    now apply sorted_elem_of, list_elem_of_In.
  - now apply (local_seed_file_listing cfg w names marker).
  - intros w' names' Hdir' Hperm Hopen.
    rewrite (local_seed_file_listing cfg w names marker) by assumption.
    rewrite (local_seed_file_listing cfg w' names' marker); try assumption.
    + now rewrite Hopen.
    + now rewrite <- (sorted_last_permutation names names').
Qed.

Lemma X5_local_seed_greatest_name_witness :
  _get_seed_file (sample_config false "" 2 "2023-01-01")
    (seeded_world (mk 2023 6 3)
       ["2023-06-01.csv"; "2023-05-31.csv"; "2023-05-04.csv"] "Booking_Id")
  = Ok ("2023-06-01", TextStream "Booking_Id").
Proof.
  destruct (X5_local_seed_greatest_name (sample_config false "" 2 "2023-01-01")
              (seeded_world (mk 2023 6 3)
                 ["2023-06-01.csv"; "2023-05-31.csv"; "2023-05-04.csv"]
                 "Booking_Id")
              ["2023-06-01.csv"; "2023-05-31.csv"; "2023-05-04.csv"]
              eq_refl eq_refl ltac:(discriminate)) as (marker & _ & _ & _ & _).
  reflexivity.
Defined.

(** X6: on the local file system only a missing seed directory counts as an
    absent seed: any other error of the listing, and any error of the opening
    of the seed file, leaves [_get_seed_file] and [_generate_urls]. *)
Theorem X6_local_seed_errors (cfg : app_config) (reader : string -> list csv_row)
    (w : World) (self : InmatesSpider) :
  USE_S3_STORAGE cfg = false ->
  (forall e, e <> FileNotFoundError ->
             os_listdir w "data/daily" = Raise e ->
             _get_seed_file cfg w = Raise e
             /\ _generate_urls cfg reader w self = Raise e)
  /\ (forall names marker e,
        os_listdir w "data/daily" = Ok names ->
        last (Py.sorted names) = Some marker ->
        open_read w (Py.path_join "data/daily" marker) = Raise e ->
        _get_seed_file cfg w = Raise e
        /\ _generate_urls cfg reader w self = Raise e).
Proof.
  intros Hs3. split.
  - intros e He Hdir.
    assert (H : _get_seed_file cfg w = Raise e).
    { unfold _get_seed_file, _get_local_seed_file. rewrite Hs3, Hdir.
      now destruct e. }
    split; [exact H|]. unfold _generate_urls. now rewrite H.
  - intros names marker e Hdir Hlast Hopen.
    assert (H : _get_seed_file cfg w = Raise e).
    { rewrite (local_seed_file_listing cfg w names marker) by assumption.
      destruct (date_of_name_total marker) as [s ->].
      now rewrite bind_Ok, Hopen. }
    split; [exact H|]. unfold _generate_urls. now rewrite H.
Qed.

Lemma X6_local_seed_errors_witness :
  _generate_urls (sample_config false "" 2 "2023-01-01") sample_reader
    (unlistable_world (mk 2023 6 3)) (spider_on (mk 2023 6 3) (mk 2023 6 2) false)
  = Raise OSError.
Proof.
  refine (proj2 (proj1
    (X6_local_seed_errors (sample_config false "" 2 "2023-01-01") sample_reader
       (unlistable_world (mk 2023 6 3))
       (spider_on (mk 2023 6 3) (mk 2023 6 2) false) eq_refl)
    OSError _ eq_refl)).
  discriminate.
Defined.

(** ** The rows of the seed *)

Lemma row_url_None (cfg : app_config) (row : csv_row) :
  row !! "Booking_Id" = None -> row_url cfg row = Raise KeyError.
Proof. intros H. unfold row_url. now rewrite H. Qed.

Lemma row_url_Some (cfg : app_config) (row : csv_row) (v : option string) :
  row !! "Booking_Id" = Some v ->
  row_url cfg row = Ok (INMATE_URL_TEMPLATE cfg (format_value v)).
Proof. intros H. unfold row_url. now rewrite H. Qed.

Lemma comprehension_row_url_raise (cfg : app_config) (rows : list csv_row) :
  Exists (fun row : csv_row => row !! "Booking_Id" = None) rows ->
  comprehension (row_url cfg) rows = Raise KeyError.
Proof.
  induction rows as [|row rows IH]; intros Hex; [inversion Hex|].
  cbn [comprehension].
  destruct (row !! "Booking_Id") as [v|] eqn:Hrow.
  - rewrite (row_url_Some cfg row v Hrow), bind_Ok.
    apply Exists_cons in Hex as [Hhead | Htail]; [congruence|].
    now rewrite (IH Htail).
  - now rewrite (row_url_None cfg row Hrow).
Qed.

Lemma comprehension_row_url_ok (cfg : app_config) (rows : list csv_row) :
  Forall (fun row : csv_row => is_Some (row !! "Booking_Id")) rows ->
  comprehension (row_url cfg) rows
  = Ok ((fun row : csv_row =>
           INMATE_URL_TEMPLATE cfg
             (format_value (default None (row !! "Booking_Id")))) <$> rows).
Proof.
  induction rows as [|row rows IH]; intros Hall; [reflexivity|].
  apply Forall_cons in Hall as [[v Hv] Htail].
  cbn [comprehension].
  rewrite (row_url_Some cfg row v Hv), bind_Ok, (IH Htail), bind_Ok.
  cbn [fmap list_fmap]. now rewrite Hv.
Qed.

(** X1: when the seed resolves and its date parses, a row without the column
    [Booking_Id] makes [_generate_urls] raise [KeyError], whatever the other
    rows hold; when every row has the column, the seed gives one URL for each
    row, in the order of the rows, a value [None] being written None. *)
Theorem X1_seed_rows (cfg : app_config) (reader : string -> list csv_row)
    (w : World) (self : InmatesSpider) (s : string) (f : seed_lines)
    (D : datetime) :
  _get_seed_file cfg w = Ok (s, f) ->
  strptime s = Ok D ->
  (Exists (fun row : csv_row => row !! "Booking_Id" = None) (DictReader reader f) ->
   _generate_urls cfg reader w self = Raise KeyError)
  /\ (Forall (fun row : csv_row => is_Some (row !! "Booking_Id"))
        (DictReader reader f) ->
      comprehension (row_url cfg) (DictReader reader f)
      = Ok ((fun row : csv_row =>
               INMATE_URL_TEMPLATE cfg
                 (format_value (default None (row !! "Booking_Id"))))
              <$> DictReader reader f)).
Proof.
  intros Hseed HD. split.
  - intros Hex. unfold _generate_urls. rewrite Hseed, bind_Ok. cbn beta iota.
    rewrite HD, bind_Ok.
    now rewrite (comprehension_row_url_raise cfg _ Hex).
  - apply comprehension_row_url_ok.
Qed.

Lemma X1_seed_rows_witness :
  _generate_urls (sample_config false "" 2 "2023-01-01") keyless_reader
    (seeded_world (mk 2023 6 3) ["2023-06-01.csv"] "Name")
    (spider_on (mk 2023 6 3) (mk 2023 6 2) false)
  = Raise KeyError.
Proof.
  refine (proj1
    (X1_seed_rows (sample_config false "" 2 "2023-01-01") keyless_reader
       (seeded_world (mk 2023 6 3) ["2023-06-01.csv"] "Name")
       (spider_on (mk 2023 6 3) (mk 2023 6 2) false)
       "2023-06-01" (TextStream "Name") (mk 2023 6 1) eq_refl eq_refl) _).
  apply Exists_cons_hd. reflexivity.
Defined.

(** ** When a page yields its item *)

(** X8: [parse] yields exactly when every save that the configuration enables
    succeeds and the booking date of the page parses, and it then yields the
    one item of the page; in every other case it raises. *)
Theorem X8_parse_yields_iff (cfg : app_config) (InmatePage : string -> Inmate)
    (w : World) (self : InmatesSpider) (body : string) (items : list Item) :
  parse cfg InmatePage w self body = Ok items
  <-> saves_succeed cfg w self body (InmatePage body)
      /\ exists b, strptime (booking_date (InmatePage body)) = Ok b
                   /\ items = [make_item (InmatePage body)
                                 (lt b (_yesterday self))].
Proof.
  split.
  - intros H.
    assert (Hsaves : saves_succeed cfg w self body (InmatePage body)).
    { unfold parse in H. cbv zeta in H. unfold saves_succeed.
      destruct (USE_LOCAL_STORAGE cfg).
      - destruct (_save_local w self body (InmatePage body)) as [[]|e];
          [|discriminate].
        rewrite bind_Ok in H. split; [reflexivity|].
        destruct (USE_S3_STORAGE cfg); [|discriminate].
        now destruct (_save_to_s3 cfg w self body (InmatePage body)) as [[]|e'].
      - rewrite bind_Ok in H. split; [discriminate|].
        destruct (USE_S3_STORAGE cfg); [|discriminate].
        now destruct (_save_to_s3 cfg w self body (InmatePage body)) as [[]|e']. }
    split; [exact Hsaves|].
    rewrite (parse_after_saves cfg InmatePage w self body Hsaves) in H.
    unfold _is_complete_record in H.
    destruct (strptime (booking_date (InmatePage body))) as [b|e]; [|discriminate].
    rewrite !bind_Ok in H. injection H as <-. eauto.
  - intros (Hsaves & b & Hb & ->). rewrite parse_after_saves by assumption.
    unfold _is_complete_record. now rewrite Hb.
Qed.

(** ** Scans that follow one another *)

Lemma days_between_split (start mid today : datetime) :
  valid start = true -> valid mid = true -> valid today = true ->
  le start mid = true -> le mid today = true ->
  days_between start today = days_between start mid ++ days_between mid today.
Proof.
  intros Hs Hm Ht Hsm Hmt. revert Hsm.
  apply (days_between_ind mid
           (fun c l => le c mid = true ->
                       days_between c today = l ++ days_between mid today));
    try assumption.
  - intros c Hc Hlt Hle.
    destruct (le_lt_or_eq _ _ Hle) as [Hlt' | ->]; [congruence | reflexivity].
  - intros c c' Hc Hlt Hadd Hc' IH _.
    pose proof (lt_le_trans _ _ _ Hlt Hmt) as Hct.
    destruct (days_between_cons _ _ Ht Hc Hct) as (c'' & Hadd' & _ & ->).
    assert (c'' = c') by congruence. subst c''.
    rewrite IH; [reflexivity|].
    exact (add_ONE_DAY_least c c' mid Hc Hm Hadd Hlt).
Qed.

Lemma scan_universe_days (cfg : app_config) (start today : datetime)
    (urls : list string) :
  valid today = true -> valid start = true ->
  scan_universe cfg (scan_fuel start today) today start urls
  = Ok (urls ++ flat_map (day_urls cfg) (days_between start today)).
Proof.
  intros Ht Hs.
  rewrite scan_universe_runs by (assumption || lia).
  now rewrite scan_days_enough by (assumption || lia).
Qed.

(** X3: a scan from [start] to [today] adds what a scan from [start] to a day
    [mid] between them adds, followed by what a scan from [mid] to [today]
    adds: scans that follow one another leave no day out and take no day
    twice. *)
Theorem X3_scan_resumes (cfg : app_config) (start mid today : datetime)
    (urls : list string) :
  valid start = true -> valid mid = true -> valid today = true ->
  le start mid = true -> le mid today = true ->
  scan_universe cfg (scan_fuel start today) today start urls
  = (urls' ← scan_universe cfg (scan_fuel start mid) mid start urls;
     scan_universe cfg (scan_fuel mid today) today mid urls').
Proof.
  intros Hs Hm Ht Hsm Hmt.
  rewrite !scan_universe_days, bind_Ok, scan_universe_days by assumption.
  rewrite (days_between_split start mid today) by assumption.
  now rewrite flat_map_app, app_assoc.
Qed.

Lemma X3_scan_resumes_witness :
  scan_universe (sample_config false "" 2 "2023-01-01")
    (scan_fuel (mk 2023 2 27) (mk 2023 3 2)) (mk 2023 3 2) (mk 2023 2 27) []
  = (urls' ← scan_universe (sample_config false "" 2 "2023-01-01")
               (scan_fuel (mk 2023 2 27) (mk 2023 3 1)) (mk 2023 3 1)
               (mk 2023 2 27) [];
     scan_universe (sample_config false "" 2 "2023-01-01")
       (scan_fuel (mk 2023 3 1) (mk 2023 3 2)) (mk 2023 3 2) (mk 2023 3 1) urls').
Proof.
  exact (X3_scan_resumes (sample_config false "" 2 "2023-01-01")
           (mk 2023 2 27) (mk 2023 3 1) (mk 2023 3 2) []
           eq_refl eq_refl eq_refl eq_refl eq_refl).
Defined.

(** ** No URL twice *)

Lemma range_NoDup (a b : Z) : NoDup (Py.range a b).
Proof.
  unfold Py.range. apply NoDup_fmap_2; [|apply NoDup_seq].
  intros i j H. lia.
Qed.

Lemma day_urls_NoDup (cfg : app_config) (d : datetime) :
  (forall a b, INMATE_URL_TEMPLATE cfg a = INMATE_URL_TEMPLATE cfg b -> a = b) ->
  valid d = true -> NoDup (day_urls cfg d).
Proof.
  intros Hinj Hd. unfold day_urls.
  apply NoDup_fmap_2_strong; [|apply range_NoDup].
  intros n n' Hn Hn' H.
  apply list_elem_of_In, in_range in Hn. apply list_elem_of_In, in_range in Hn'.
  apply Hinj in H. apply jailnumber_inj in H as [_ H]; (assumption || lia).
Qed.

Lemma enumerate_NoDup (cfg : app_config) (start today : datetime) :
  (forall a b, INMATE_URL_TEMPLATE cfg a = INMATE_URL_TEMPLATE cfg b -> a = b) ->
  valid today = true -> valid start = true ->
  NoDup (enumerate cfg start today).
Proof.
  intros Hinj Ht Hs. unfold enumerate.
  apply (days_between_ind today
           (fun c l => NoDup (flat_map (day_urls cfg) l))); try assumption.
  - intros c Hc Hlt. constructor.
  - intros c c' Hc Hlt Hadd Hc' IH. cbn [flat_map].
    apply NoDup_app. split; [now apply day_urls_NoDup|]. split; [|exact IH].
    intros u Hu Hu'.
    apply list_elem_of_In, in_day_urls in Hu as (n & Hn & ->).
    apply list_elem_of_In, in_flat_map in Hu' as (d & Hd & Hu').
    apply in_days_between in Hd as (Hdv & Hle & _); try assumption.
    apply in_day_urls in Hu' as (n' & Hn' & Heq).
    apply Hinj, jailnumber_date_inj in Heq; try assumption. subst d.
    pose proof (lt_le_trans _ _ _ (add_ONE_DAY_lt _ _ Hadd) Hle) as Hcc.
    rewrite lt_irrefl in Hcc. discriminate.
Qed.

(** X4: when the URL template gives different URLs for different jail
    numbers, the scan of the days from [start] to the eve of [today] makes no
    URL twice. *)
Theorem X4_no_url_twice (cfg : app_config) (start today : datetime) :
  (forall a b, INMATE_URL_TEMPLATE cfg a = INMATE_URL_TEMPLATE cfg b -> a = b) ->
  valid today = true -> valid start = true ->
  exists urls,
    scan_universe cfg (scan_fuel start today) today start [] = Ok urls
    /\ NoDup urls.
Proof.
  intros Hinj Ht Hs. exists (enumerate cfg start today). split.
  - now rewrite scan_universe_days.
  - now apply enumerate_NoDup.
Qed.

Lemma sample_template_inj (a b : string) :
  sample_template a = sample_template b -> a = b.
Proof. apply string_app_inv_head. Qed.

Lemma X4_no_url_twice_witness :
  exists urls,
    scan_universe (sample_config false "" 3 "2023-01-01")
      (scan_fuel (mk 2023 2 27) (mk 2023 3 2)) (mk 2023 3 2) (mk 2023 2 27) []
    = Ok urls
    /\ NoDup urls.
Proof.
  exact (X4_no_url_twice (sample_config false "" 3 "2023-01-01")
           (mk 2023 2 27) (mk 2023 3 2) sample_template_inj eq_refl eq_refl).
Defined.

(** ** The size of a run *)

Lemma enumerate_length (cfg : app_config) (start today : datetime) :
  length (enumerate cfg start today)
  = (length (days_between start today)
     * Z.to_nat (MAX_DEFAULT_JAIL_NUMBER cfg))%nat.
Proof.
  unfold enumerate. apply flat_map_constant_length.
  intros d _. apply day_urls_length.
Qed.

(** X11: the scan adds [MAX_DEFAULT_JAIL_NUMBER] URLs for each day it visits,
    and with a number that is zero or negative it adds none and returns the
    list it was given. *)
Theorem X11_scan_size (cfg : app_config) (start today : datetime)
    (urls : list string) :
  valid today = true -> valid start = true ->
  exists out,
    scan_universe cfg (scan_fuel start today) today start urls = Ok out
    /\ length out
       = (length urls
          + length (days_between start today)
            * Z.to_nat (MAX_DEFAULT_JAIL_NUMBER cfg))%nat
    /\ (MAX_DEFAULT_JAIL_NUMBER cfg <= 0 -> out = urls).
Proof.
  intros Ht Hs. exists (urls ++ enumerate cfg start today).
  split; [now rewrite scan_universe_days|]. split.
  - now rewrite length_app, enumerate_length.
  - intros Hmax.
    pose proof (enumerate_length cfg start today) as Hlen.
    replace (Z.to_nat (MAX_DEFAULT_JAIL_NUMBER cfg)) with 0%nat in Hlen by lia.
    rewrite Nat.mul_0_r in Hlen.
    destruct (enumerate cfg start today); [now rewrite app_nil_r | discriminate].
Qed.

Lemma X11_scan_size_witness :
  exists out,
    scan_universe (sample_config false "" 0 "2023-01-01")
      (scan_fuel (mk 2023 2 27) (mk 2023 3 2)) (mk 2023 3 2) (mk 2023 2 27)
      ["seed"]
    = Ok out
    /\ length out
       = (length ["seed"]
          + length (days_between (mk 2023 2 27) (mk 2023 3 2))
            * Z.to_nat (MAX_DEFAULT_JAIL_NUMBER
                          (sample_config false "" 0 "2023-01-01")))%nat
    /\ (MAX_DEFAULT_JAIL_NUMBER (sample_config false "" 0 "2023-01-01") <= 0 ->
        out = ["seed"]).
Proof.
  exact (X11_scan_size (sample_config false "" 0 "2023-01-01")
           (mk 2023 2 27) (mk 2023 3 2) ["seed"] eq_refl eq_refl).
Defined.

(** ** The sample of a testing run, in general *)

Lemma last_drop {A} (k : nat) (l : list A) :
  (k < length l)%nat -> last (drop k l) = last l.
Proof.
  intros Hk. rewrite !last_lookup, lookup_drop, length_drop. f_equal. lia.
Qed.

Lemma slice_from_tail {A} (l : list A) :
  let smp := Py.slice_from (Z.of_nat (length l) - 600) l in
  smp `suffix_of` l
  /\ (length smp <= 600)%nat
  /\ ((600 <= length l)%nat -> length smp = 600%nat)
  /\ (l <> [] -> last smp = last l).
Proof.
  unfold Py.slice_from. cbv zeta.
  set (k := Z.to_nat (if Z.of_nat (length l) - 600 <? 0
                      then Z.max 0 (Z.of_nat (length l) - 600 + Z.of_nat (length l))
                      else Z.min (Z.of_nat (length l) - 600) (Z.of_nat (length l)))).
  assert (Hk : (length l - k <= 600)%nat
               /\ ((600 <= length l)%nat -> (length l - k = 600)%nat)
               /\ (l <> [] -> (k < length l)%nat)).
  { subst k. destruct (Z.ltb_spec (Z.of_nat (length l) - 600) 0).
    - repeat split; try lia. intros Hne. destruct l; [contradiction|].
      simpl length in *. lia.
    - repeat split; try lia. }
  destruct Hk as (H1 & H2 & H3).
  split; [apply suffix_drop|]. rewrite length_drop.
  split; [exact H1|]. split; [exact H2|].
  intros Hne. apply last_drop. now apply H3.
Qed.

(** X7: the list that a testing run returns is the end of the list that the
    same run returns without testing; it has 600 URLs at most, exactly 600
    when the full list has 600 or more, and it keeps the last URL of the full
    list. *)
Theorem X7_testing_sample (cfg : app_config) (reader : string -> list csv_row)
    (w : World) (self : InmatesSpider) (s : string) (f : seed_lines)
    (D start : datetime) (seed : list string) :
  valid (_today self) = true ->
  _get_seed_file cfg w = Ok (s, f) ->
  strptime s = Ok D ->
  comprehension (row_url cfg) (DictReader reader f) = Ok seed ->
  cursor D seed = Ok start ->
  exists full smp,
    _generate_urls cfg reader w (with_testing false self) = Ok full
    /\ _generate_urls cfg reader w (with_testing true self) = Ok smp
    /\ smp `suffix_of` full
    /\ (length smp <= 600)%nat
    /\ ((600 <= length full)%nat -> length smp = 600%nat)
    /\ (full <> [] -> last smp = last full).
Proof.
  intros Ht Hseed HD Hrows Hstart.
  exists (seed ++ enumerate cfg start (_today self)).
  eexists. split; [|split].
  - now rewrite (generate_urls_run cfg reader w (with_testing false self)
                   s f D start seed).
  - now rewrite (generate_urls_run cfg reader w (with_testing true self)
                   s f D start seed).
  - apply slice_from_tail.
Qed.

Lemma X7_testing_sample_witness :
  exists full smp,
    _generate_urls (sample_config false "" 350 "2023-01-01") sample_reader
      (empty_world (mk 2023 1 3))
      (with_testing false (spider_on (mk 2023 1 3) (mk 2023 1 2) true))
    = Ok full
    /\ _generate_urls (sample_config false "" 350 "2023-01-01") sample_reader
         (empty_world (mk 2023 1 3))
         (with_testing true (spider_on (mk 2023 1 3) (mk 2023 1 2) true))
       = Ok smp
    /\ smp `suffix_of` full
    /\ (length smp <= 600)%nat
    /\ ((600 <= length full)%nat -> length smp = 600%nat)
    /\ (full <> [] -> last smp = last full).
Proof.
  exact (X7_testing_sample (sample_config false "" 350 "2023-01-01") sample_reader
           (empty_world (mk 2023 1 3))
           (spider_on (mk 2023 1 3) (mk 2023 1 2) true)
           "2023-01-01" EmptyList (mk 2023 1 1) (mk 2023 1 1) []
           eq_refl eq_refl eq_refl eq_refl eq_refl).
Defined.

(** ** The date of a seed file, written and read back *)

Lemma year_text_all (y : Z) : 0 <= y <= 9999 -> year_text_ok y = true.
Proof.
  intros Hy.
  assert (Hall : forallb (fun i => year_text_ok (Z.of_nat i))
                   (seq 0 (Z.to_nat 10000)) = true) by (vm_compute; reflexivity).
  rewrite forallb_forall in Hall.
  specialize (Hall (Z.to_nat y)). rewrite Z2Nat.id in Hall by lia.
  apply Hall, in_seq. lia.
Qed.

Lemma day_text_all (d : Z) : 1 <= d <= 31 -> day_text_ok d = true.
Proof.
  intros Hd.
  assert (Hall : forallb (fun i => day_text_ok (Z.of_nat i))
                   (seq 1 31) = true) by (vm_compute; reflexivity).
  rewrite forallb_forall in Hall.
  specialize (Hall (Z.to_nat d)). rewrite Z2Nat.id in Hall by lia.
  apply Hall, in_seq. lia.
Qed.

Lemma match_Y_app (s rest r : string) (y : Z) :
  match_Y s = Some (y, rest) -> match_Y (s +:+ r) = Some (y, rest +:+ r).
Proof.
  destruct s as [|a [|b [|c [|e s]]]]; try discriminate. simpl.
  destruct (digit a), (digit b), (digit c), (digit e); try discriminate.
  now intros [= <- <-].
Qed.

Lemma match_Y_year (y : Z) (r : string) :
  0 <= y <= 9999 -> match_Y (Py.zfill 4 (Py.str y) +:+ r) = Some (y, r).
Proof.
  intros Hy. pose proof (year_text_all y Hy) as Hok. unfold year_text_ok in Hok.
  destruct (match_Y (Py.zfill 4 (Py.str y))) as [[y' rest]|] eqn:HY;
    [|discriminate].
  destruct rest; [|discriminate]. apply Z.eqb_eq in Hok. subst y'.
  now rewrite (match_Y_app _ _ r _ HY).
Qed.

Lemma match_d_day (d : Z) :
  1 <= d <= 31 -> match_d (Py.zfill 2 (Py.str d)) = Some (d, "").
Proof.
  intros Hd. pose proof (day_text_all d Hd) as Hok. unfold day_text_ok in Hok.
  destruct (match_d (Py.zfill 2 (Py.str d))) as [[d' rest]|]; [|discriminate].
  destruct rest; [|discriminate]. apply Z.eqb_eq in Hok. now subst d'.
Qed.

Lemma match_m_hyphen_month (m : Z) (r : string) :
  1 <= m <= 12 ->
  match_m_hyphen (Py.zfill 2 (Py.str m) +:+ "-" +:+ r) = Some (m, r).
Proof.
  intros Hm.
  assert (Hcases : m = 1 \/ m = 2 \/ m = 3 \/ m = 4 \/ m = 5 \/ m = 6 \/ m = 7
                   \/ m = 8 \/ m = 9 \/ m = 10 \/ m = 11 \/ m = 12) by lia.
  repeat (destruct Hcases as [-> | Hcases]; [reflexivity|]).
  subst m. reflexivity.
Qed.

Lemma match_hyphen_hyphen (r : string) : match_hyphen ("-" +:+ r) = Some r.
Proof. reflexivity. Qed.

Lemma strptime_strftime (d : datetime) :
  valid d = true -> strptime (strftime d "%Y-%m-%d") = Ok d.
Proof.
  intros Hv. pose proof (valid_bounds d Hv) as Hb.
  rewrite strftime_page_format. unfold strptime.
  rewrite match_Y_year by lia.
  rewrite match_hyphen_hyphen, match_m_hyphen_month by lia.
  rewrite match_d_day by lia.
  destruct d as [y m dd]. simpl in *. now rewrite Hv.
Qed.

Lemma char_free_cons (c x : ascii) (s : string) :
  char_free c (String x s) = negb (Ascii.eqb x c) && char_free c s.
Proof. reflexivity. Qed.

Lemma char_free_app (c : ascii) (a b : string) :
  char_free c (a +:+ b) = char_free c a && char_free c b.
Proof.
  induction a as [|x a IH]; [reflexivity|].
  change (String x a +:+ b) with (String x (a +:+ b)).
  now rewrite !char_free_cons, IH, andb_assoc.
Qed.

Lemma char_free_other (c x : ascii) (s : string) :
  x <> c -> char_free c s = true -> char_free c (String x s) = true.
Proof.
  intros Hx Hs. rewrite char_free_cons, Hs.
  destruct (Ascii.eqb_spec x c); [contradiction | reflexivity].
Qed.

Lemma char_free_zeros (c : ascii) (k : nat) :
  digit c = None -> char_free c (Py.zeros k) = true.
Proof.
  intros Hc. induction k as [|k IH]; [reflexivity|].
  change (Py.zeros (S k)) with (String "0" (Py.zeros k)).
  apply char_free_other; [|exact IH]. intros <-. discriminate.
Qed.

Lemma char_free_uint (c : ascii) (u : Decimal.uint) :
  digit c = None -> char_free c (NilEmpty.string_of_uint u) = true.
Proof.
  intros Hc. induction u as [|u IH|u IH|u IH|u IH|u IH|u IH|u IH|u IH|u IH|u IH];
    cbn [NilEmpty.string_of_uint]; [reflexivity | ..];
    (apply char_free_other; [intros <-; discriminate | exact IH]).
Qed.

Lemma char_free_str (c : ascii) (n : Z) :
  digit c = None -> 0 <= n -> char_free c (Py.str n) = true.
Proof.
  intros Hc Hn. destruct n as [|p|p]; [| | lia].
  - change (Py.str 0) with "0".
    apply char_free_other; [intros <-; discriminate | reflexivity].
  - unfold Py.str. cbn [Z.to_int NilZero.string_of_int].
    pose proof (DecimalPos.Unsigned.to_uint_nonnil p) as Hnn.
    pose proof (char_free_uint c (Pos.to_uint p) Hc) as Hfree.
    unfold NilZero.string_of_uint.
    destruct (Pos.to_uint p); [contradiction | exact Hfree ..].
Qed.

Lemma char_free_zfill (c : ascii) (width : nat) (n : Z) :
  digit c = None -> 0 <= n -> char_free c (Py.zfill width (Py.str n)) = true.
Proof.
  intros Hc Hn. unfold Py.zfill.
  now rewrite char_free_app, char_free_zeros, char_free_str.
Qed.

Lemma char_free_strftime (c : ascii) (d : datetime) :
  digit c = None -> c <> "-"%char -> valid d = true ->
  char_free c (strftime d "%Y-%m-%d") = true.
Proof.
  intros Hc Hh Hv. apply valid_bounds in Hv.
  assert (Hhyphen : char_free c "-" = true).
  { apply char_free_other; [congruence | reflexivity]. }
  rewrite strftime_page_format, !char_free_app, Hhyphen.
  now rewrite !char_free_zfill by (assumption || lia).
Qed.

Lemma split_char_free (sep : ascii) (s : string) :
  char_free sep s = true -> Py.split sep s = [s].
Proof.
  induction s as [|c s IH]; [reflexivity|].
  rewrite char_free_cons. intros H.
  apply andb_true_iff in H as [Hc Hs]. apply negb_true_iff in Hc.
  cbn [Py.split]. now rewrite Hc, (IH Hs).
Qed.

Lemma split_app_sep (sep : ascii) (a b : string) :
  Py.split sep (a +:+ String sep b) = Py.split sep a ++ Py.split sep b.
Proof.
  induction a as [|c a IH].
  - change ("" +:+ String sep b) with (String sep b). cbn [Py.split].
    now rewrite Ascii.eqb_refl.
  - change (String c a +:+ String sep b) with (String c (a +:+ String sep b)).
    cbn [Py.split]. rewrite IH.
    destruct (Ascii.eqb c sep); [reflexivity|].
    pose proof (split_nonempty sep a).
    destruct (Py.split sep a); [contradiction | reflexivity].
Qed.

(** X2: for a calendar day of the year 1000 or of a later year, where every
    C library writes [%Y] on four digits, the text that [strftime] writes with
    the format [%Y-%m-%d] is read back as that day by [strptime]; and it is
    the date that the spider finds in a file name made of that text, a dot
    and an extension, and in a URL that ends with such a file name. *)
Theorem X2_seed_date_round_trip (d : datetime) :
  valid d = true ->
  1000 <= year d ->
  strptime (strftime d "%Y-%m-%d") = Ok d
  /\ (forall ext,
        date_of_name (strftime d "%Y-%m-%d" +:+ "." +:+ ext)
        = Ok (strftime d "%Y-%m-%d"))
  /\ (forall prefix ext,
        char_free "/" ext = true ->
        date_of_url (prefix +:+ "/" +:+ strftime d "%Y-%m-%d" +:+ "." +:+ ext)
        = Ok (strftime d "%Y-%m-%d")).
Proof.
  intros Hv _.
  assert (Hname : forall ext,
             date_of_name (strftime d "%Y-%m-%d" +:+ "." +:+ ext)
             = Ok (strftime d "%Y-%m-%d")).
  { intros ext. unfold date_of_name.
    change ("." +:+ ext) with (String "." ext).
    rewrite split_app_sep, split_char_free; [reflexivity|].
    apply char_free_strftime; [reflexivity | discriminate | assumption]. }
  split; [now apply strptime_strftime|]. split; [exact Hname|].
  intros prefix ext Hext. unfold date_of_url.
  change ("/" +:+ strftime d "%Y-%m-%d" +:+ "." +:+ ext)
    with (String "/" (strftime d "%Y-%m-%d" +:+ "." +:+ ext)).
  rewrite split_app_sep.
  rewrite (split_char_free "/" (strftime d "%Y-%m-%d" +:+ "." +:+ ext)).
  - unfold Py.index_last. rewrite last_snoc, bind_Ok. apply Hname.
  - rewrite char_free_app, char_free_strftime;
      [exact Hext | reflexivity | discriminate | assumption].
Qed.

Lemma X2_seed_date_round_trip_witness :
  strptime (strftime (mk 2024 2 29) "%Y-%m-%d") = Ok (mk 2024 2 29)
  /\ date_of_url "https://s3.amazonaws.com/bucket/daily/2024-02-29.csv"
     = Ok "2024-02-29".
Proof.
  destruct (X2_seed_date_round_trip (mk 2024 2 29) eq_refl ltac:(simpl; lia))
    as (H1 & _ & H3).
  split; [exact H1|].
  exact (H3 "https://s3.amazonaws.com/bucket/daily" "csv" eq_refl).
Defined.

(** ** Where a page is stored *)

Lemma year_text_first (y : Z) :
  0 <= y <= 9999 ->
  exists a r, Py.zfill 4 (Py.str y) = String a r /\ digit a <> None.
Proof.
  intros Hy. pose proof (match_Y_year y "" Hy) as H.
  rewrite string_app_nil_r in H.
  destruct (Py.zfill 4 (Py.str y)) as [|a r]; [discriminate|].
  exists a, r. split; [reflexivity|].
  destruct r as [|b [|c [|e r]]]; try discriminate. simpl in H.
  now destruct (digit a).
Qed.

Lemma page_filename_relative (self : InmatesSpider) (inmate : Inmate) :
  valid (_today self) = true ->
  Py.startswith "/" (_generate_page_filename self inmate) = false.
Proof.
  intros Hv. apply valid_bounds in Hv. unfold _generate_page_filename.
  rewrite strftime_page_format.
  destruct (year_text_first (year (_today self))) as (a & r & -> & Ha); [lia|].
  simpl. destruct (Ascii.eqb_spec a "/") as [-> | _]; [|reflexivity].
  now contradiction Ha.
Qed.

Lemma page_filename_booking_id (self : InmatesSpider) (inmate inmate' : Inmate) :
  _generate_page_filename self inmate = _generate_page_filename self inmate' ->
  booking_id inmate = booking_id inmate'.
Proof.
  intros H. unfold _generate_page_filename in H.
  apply string_app_inv_head, string_app_inv_head in H.
  now apply string_app_inv_tail in H.
Qed.

(** X9: in one run and under one configuration, two pages stored under the
    same S3 key have the same booking identifier, whatever the target is. *)
Theorem X9_s3_key_injective (cfg : app_config) (self : InmatesSpider)
    (inmate inmate' : Inmate) :
  s3_key cfg self inmate = s3_key cfg self inmate' ->
  booking_id inmate = booking_id inmate'.
Proof.
  unfold s3_key. cbv zeta. intros H.
  apply (page_filename_booking_id self).
  destruct (TARGET cfg) as [|c t]; simpl in H.
  - now apply (string_app_inv_head "raw/").
  - destruct (Ascii.eqb c "/"); simpl in H.
    + apply string_app_inv_head in H. now apply (string_app_inv_head "/raw/").
    + injection H as H. apply string_app_inv_head in H.
      now apply (string_app_inv_head "/raw/").
Qed.

Lemma X9_s3_key_injective_witness :
  booking_id (sample_page "2023-06-01" "2023-0601001")
  = booking_id (sample_page "2023-06-02" "2023-0601001").
Proof.
  exact (X9_s3_key_injective (sample_config true "/jail" 50 "2023-01-01")
           (spider_on (mk 2023 6 3) (mk 2023 6 2) false)
           (sample_page "2023-06-01" "2023-0601001")
           (sample_page "2023-06-02" "2023-0601001") eq_refl).
Defined.

(** X10: on a calendar day the file name of a page begins with a digit, so
    [_save_local] writes the page in [data/raw] under that name, whatever the
    booking identifier is; and with an empty target the local path is [data/]
    followed by the S3 key. *)
Theorem X10_local_path (cfg : app_config) (w : World) (self : InmatesSpider)
    (body : string) (inmate : Inmate) :
  valid (_today self) = true ->
  _save_local w self body inmate
  = (_ ← os_makedirs w "data/raw";
     open_write w ("data/raw/" +:+ _generate_page_filename self inmate) body)
  /\ (TARGET cfg = "" ->
      "data/raw/" +:+ _generate_page_filename self inmate
      = "data/" +:+ s3_key cfg self inmate).
Proof.
  intros Hv. split.
  - unfold _save_local, Py.path_join.
    now rewrite (page_filename_relative self inmate Hv).
  - intros Htarget. unfold s3_key. rewrite Htarget. reflexivity.
Qed.

Lemma X10_local_path_witness :
  _save_local (empty_world (mk 2023 6 3))
    (spider_on (mk 2023 6 3) (mk 2023 6 2) false) "body"
    (sample_page "2023-06-01" "/etc/passwd")
  = (_ ← os_makedirs (empty_world (mk 2023 6 3)) "data/raw";
     open_write (empty_world (mk 2023 6 3))
       "data/raw/2023-06-03-/etc/passwd.html" "body").
Proof.
  exact (proj1
    (X10_local_path (sample_config false "" 50 "2023-01-01")
       (empty_world (mk 2023 6 3)) (spider_on (mk 2023 6 3) (mk 2023 6 2) false)
       "body" (sample_page "2023-06-01" "/etc/passwd") eq_refl)).
Defined.

(** ** A manifest that ends with an empty line *)

Lemma splitlines_break (c : ascii) (r : string) :
  Py.is_linebreak c = true ->
  Py.splitlines (String c r) = "" :: Py.splitlines (after_break c r).
Proof.
  intros Hc. destruct (Ascii.eqb_spec c "013") as [-> | Hne].
  - destruct r as [|c' r']; [reflexivity|].
    unfold after_break. cbn [Ascii.eqb Bool.eqb].
    destruct (Ascii.eqb_spec c' "010") as [-> | Hne']; [reflexivity|].
    destruct c' as [[] [] [] [] [] [] [] []]; try reflexivity.
    now contradiction Hne'.
  - unfold after_break.
    destruct (Ascii.eqb_spec c "013") as [-> | _]; [now contradiction Hne|].
    destruct c as [[] [] [] [] [] [] [] []]; try discriminate Hc;
      try reflexivity.
    now contradiction Hne.
Qed.

Lemma splitlines_no_break (c : ascii) (r : string) :
  Py.is_linebreak c = false ->
  Py.splitlines (String c r)
  = match Py.splitlines r with
    | l :: ls => String c l :: ls
    | [] => [String c ""]
    end.
Proof. intros Hc. cbn [Py.splitlines]. now rewrite Hc. Qed.

Lemma splitlines_blank_tail (m : string) :
  exists l ls,
    Py.splitlines (m +:+ newline +:+ newline) = l :: ls /\ last ls = Some "".
Proof.
  remember (String.length m) as n eqn:Hn. revert m Hn.
  induction n as [n IH] using lt_wf_ind. intros m Hn.
  destruct m as [|c r]; [exists "", [""]; split; reflexivity|].
  change (String c r +:+ newline +:+ newline)
    with (String c (r +:+ newline +:+ newline)).
  simpl in Hn.
  destruct (Py.is_linebreak c) eqn:Hc.
  - rewrite splitlines_break by assumption.
    assert (Hafter : exists l ls,
               Py.splitlines (after_break c (r +:+ newline +:+ newline)) = l :: ls
               /\ (ls = [] -> l = "")
               /\ (ls <> [] -> last ls = Some "")).
    { unfold after_break. destruct (Ascii.eqb c "013").
      - destruct r as [|c' r'].
        + exists "", []. split; [reflexivity|]. split; [auto | contradiction].
        + change (String c' r' +:+ newline +:+ newline)
            with (String c' (r' +:+ newline +:+ newline)).
          cbv beta iota.
          destruct (Ascii.eqb c' "010").
          * destruct (IH (String.length r') ltac:(simpl in Hn; lia) r' eq_refl)
              as (l & ls & -> & Hlast).
            exists l, ls. split; [reflexivity|]. split; [|auto].
            intros ->. discriminate.
          * destruct (IH (String.length (String c' r')) ltac:(lia)
                        (String c' r') eq_refl) as (l & ls & Heq & Hlast).
            change (String c' r' +:+ newline +:+ newline)
              with (String c' (r' +:+ newline +:+ newline)) in Heq.
            rewrite Heq. exists l, ls. split; [reflexivity|]. split; [|auto].
            intros ->. discriminate.
      - destruct (IH (String.length r) ltac:(lia) r eq_refl)
          as (l & ls & -> & Hlast).
        exists l, ls. split; [reflexivity|]. split; [|auto].
        intros ->. discriminate. }
    destruct Hafter as (l & ls & -> & Hnil & Hcons).
    exists "", (l :: ls). split; [reflexivity|].
    destruct ls as [|l' ls']; [now rewrite Hnil | ].
    rewrite last_cons_cons. now apply Hcons.
  - rewrite splitlines_no_break by assumption.
    destruct (IH (String.length r) ltac:(lia) r eq_refl) as (l & ls & -> & Hlast).
    exists (String c l), ls. split; [reflexivity | exact Hlast].
Qed.

(** X12: on S3, when the text of the manifest ends with an empty line, the
    seed URL is the empty text: the run fetches it and, whatever the answer,
    raises; with an answer it raises [ValueError], since the empty text is no
    date. *)
Theorem X12_manifest_blank_last_line (cfg : app_config)
    (reader : string -> list csv_row) (w : World) (self : InmatesSpider)
    (m : string) :
  USE_S3_STORAGE cfg = true ->
  requests_get_text w (manifest_url cfg) = Ok (m +:+ newline +:+ newline) ->
  _get_seed_file cfg w
  = (text ← requests_get_text w ""; Ok ("", TextStream text))
  /\ (forall e, requests_get_text w "" = Raise e ->
                _generate_urls cfg reader w self = Raise e)
  /\ (forall text, requests_get_text w "" = Ok text ->
                   _generate_urls cfg reader w self = Raise ValueError).
Proof.
  intros Hs3 Hget.
  assert (Hseed : _get_seed_file cfg w
                  = (text ← requests_get_text w ""; Ok ("", TextStream text))).
  { unfold _get_seed_file, _get_s3_seed_file. rewrite Hs3. cbv zeta.
    rewrite Hget, bind_Ok.
    destruct (splitlines_blank_tail m) as (l & ls & -> & Hlast).
    unfold Py.pop.
    assert (Hl : last (l :: ls) = Some "").
    { destruct ls; [discriminate | now rewrite last_cons_cons]. }
    rewrite Hl, bind_Ok. reflexivity. }
  split; [exact Hseed|]. split.
  - intros e He. unfold _generate_urls. now rewrite Hseed, He.
  - intros text Htext. unfold _generate_urls. now rewrite Hseed, Htext.
Qed.

Lemma X12_manifest_blank_last_line_witness :
  _generate_urls (sample_config true "" 2 "2023-01-01") sample_reader
    (s3_world (mk 2023 6 3)
       ("https://s3.amazonaws.com/bucket/daily/2023-06-01.csv"
        +:+ newline +:+ newline)
       ("Booking_Id" +:+ newline +:+ "A1" +:+ newline))
    (spider_on (mk 2023 6 3) (mk 2023 6 2) false)
  = Raise ValueError.
Proof.
  exact (proj2 (proj2
    (X12_manifest_blank_last_line (sample_config true "" 2 "2023-01-01")
       sample_reader
       (s3_world (mk 2023 6 3)
          ("https://s3.amazonaws.com/bucket/daily/2023-06-01.csv"
           +:+ newline +:+ newline)
          ("Booking_Id" +:+ newline +:+ "A1" +:+ newline))
       (spider_on (mk 2023 6 3) (mk 2023 6 2) false)
       "https://s3.amazonaws.com/bucket/daily/2023-06-01.csv"
       eq_refl eq_refl))
    ("Booking_Id" +:+ newline +:+ "A1" +:+ newline) eq_refl).
Defined.

(** ** The first run on the local file system *)



(** ** Jail numbers *)

(** X14: the jail numbers of two calendar days and two numbers that are not
    negative are the same text only when the days and the numbers are the
    same, also for numbers of more than three digits. *)
Theorem X14_jailnumber_injective (d d' : datetime) (num num' : Z) :
  valid d = true -> valid d' = true -> 0 <= num -> 0 <= num' ->
  jailnumber (strftime d "%Y-%m%d") num = jailnumber (strftime d' "%Y-%m%d") num' ->
  d = d' /\ num = num'.
Proof.
  intros Hv Hv' Hn Hn' H. unfold jailnumber in H.
  apply string_app_inj_length in H as [Hdate Hnum];
    [|now rewrite !strftime_jail_length].
  split; [now apply strftime_jail_inj | now apply format_0d_inj in Hnum].
Qed.

Lemma X14_jailnumber_injective_witness :
  jailnumber (strftime (mk 2023 6 2) "%Y-%m%d") 1000 = "2023-06021000"
  /\ (mk 2023 6 2 = mk 2023 6 2 /\ 1000 = 1000).
Proof.
  split; [reflexivity|].
  exact (X14_jailnumber_injective (mk 2023 6 2) (mk 2023 6 2) 1000 1000
           eq_refl eq_refl ltac:(lia) ltac:(lia) eq_refl).
Defined.
